(** * compare_benchmarks: a shallow embedding of tools/scripts/compare_benchmarks.py

    The script reads two Google Benchmark JSON documents, groups the
    measurement records of each by logical benchmark name, and prints a
    table of percentage changes with a significance marker per benchmark.

    Numbers are IEEE 754 binary64 values (Python's [float], the type the
    signatures of the script announce), embedded as Rocq's primitive
    floats; the integer literals of the script that meet a float in an
    arithmetic operation ([0], [20], [100]) are the floats of the same
    value, as Python's coercion makes them.  Strings are [string];
    dictionaries are [gmap]s keyed by strings.  A Python exception is an
    explicit [Raise] outcome, and printing is a list of output lines.

    The input is taken in the shape the script expects: a document is a
    JSON object, its benchmarks are records with a name, and the times of
    a record are numbers; output lines are taken as printed.

    One operation of the script is not fixed by IEEE 754: [x ** 2], which
    CPython hands to the [pow] of the C library.  [compute_significance]
    is the estimator with the square correctly rounded;
    [compute_significance_with] is the estimator over any [pow], and the
    first is the second for a [pow] that rounds correctly.

    The script has five functions and a main block.  [load_benchmark],
    [extract_results], [compute_significance] and the main block are each
    one definition here.  The body of [compare_benchmarks] is cut at its
    loop: [compare_bundles] is the arithmetic of one iteration (lines
    108-117), [compare_name] one iteration with its two guards (lines
    97-127), [compare_names] the loop (line 96), [print_legend] and
    [print_summary] what follows it (lines 129-154), and [report] all of it
    from the first [print] on (lines 90-154). *)

From Stdlib Require Import ZArith Bool List Ascii String.
From Stdlib Require Import PrimFloat SpecFloat FloatOps FloatAxioms.
From stdpp Require Import base option list gmap strings sorting.

Set Warnings "-inexact-float,-clear-no-such-hyp".

(** ** Exceptions *)

Inductive exn : Type :=
| ZeroDivisionError
| OverflowError
| ValueError
| KeyError (key : string)
| IndexError
| FileNotFoundError (filename : string)
| JSONDecodeError (filename : string)
| SystemExit (status : Z).

Inductive result (A : Type) : Type :=
| Ok (a : A)
| Raise (e : exn).
Arguments Ok {A} a.
Arguments Raise {A} e.

#[global] Instance result_ret : MRet result := fun A a => Ok a.

#[global] Instance result_bind : MBind result := fun A B k r =>
  match r with
  | Ok a => k a
  | Raise e => Raise e
  end.

(** ** The C library under Python's floats *)

(** What [errno] holds after a call of the C library: nothing, a range
    error, or anything else (a domain error, say). *)
Inductive errno : Type :=
| no_error
| ERANGE
| other_errno.

(** The [pow] of the C library: from the base and the exponent to the
    value it returns and the [errno] it leaves.  The C standard does not
    fix its rounding, and the platforms differ in the last bit and in when
    they set [errno]. *)
Definition libm_pow : Type := float -> float -> float * errno.

(** ** Python's float operations *)

Module PyFloat.

(** [x / y]: true division raises on a zero divisor of either sign. *)
Definition truediv (x y : float) : result float :=
  if PrimFloat.eqb y 0%float then Raise ZeroDivisionError
  else Ok (PrimFloat.div x y).

(** [x ** 2] over the platform's [pow], as [float_pow] of CPython computes
    it: the special bases are settled before the C library is called, a
    negative base is replaced by its opposite (the exponent is an even
    integer), and the [errno] of [pow], adjusted for the platforms that
    report an overflow by an infinity alone or an underflow to zero as a
    range error, decides between the value and an exception. *)
Definition pow_two (pow : libm_pow) (iv : float) : result float :=
  if PrimFloat.is_nan iv then Ok iv
  else if PrimFloat.is_infinity iv then Ok (PrimFloat.abs iv)
  else if PrimFloat.eqb iv 0%float then Ok 0%float
  else
    let iv := if PrimFloat.ltb iv 0%float then PrimFloat.opp iv else iv in
    if PrimFloat.eqb iv 1%float then Ok 1%float
    else
      let (ix, err) := pow iv 2%float in
      let err :=
        match err with
        | no_error => if PrimFloat.is_infinity ix then ERANGE else no_error
        | ERANGE => if PrimFloat.eqb ix 0%float then no_error else ERANGE
        | other_errno => other_errno
        end in
      match err with
      | no_error => Ok ix
      | ERANGE => Raise OverflowError
      | other_errno => Raise ValueError
      end.

(** [x ** 2] on a platform whose [pow] rounds the square correctly: the
    square, except that a finite base whose square leaves the float range
    is an [OverflowError] ([1e200 ** 2] raises, where [1e200 * 1e200] is
    [inf]).  It is [pow_two] for such a [pow]; on other platforms the value
    may differ from it in the last bit. *)
Definition square (x : float) : result float :=
  let y := PrimFloat.mul x x in
  if PrimFloat.is_infinity y && negb (PrimFloat.is_infinity x)
  then Raise OverflowError
  else Ok y.

(** [math.sqrt x]: a negative argument is a math domain error. *)
Definition sqrt (x : float) : result float :=
  if PrimFloat.ltb x 0%float then Raise ValueError
  else Ok (PrimFloat.sqrt x).

(** [x > y] *)
Definition gt (x y : float) : bool := PrimFloat.ltb y x.

(** [x < y] *)
Definition lt (x y : float) : bool := PrimFloat.ltb x y.

(** [x == 0] *)
Definition is_zero (x : float) : bool := PrimFloat.eqb x 0%float.

End PyFloat.

(** ** Significance Estimator *)

(** The default sample size [n = 20] of [compute_significance]. *)
Definition default_n : float := 20%float.

Definition compute_significance
    (baseline_mean baseline_std optimized_mean optimized_std : float)
    : result (float * string) :=
  if PyFloat.is_zero baseline_std && PyFloat.is_zero optimized_std
  then Ok (0%float, "")
  else
    b2 ← PyFloat.square baseline_std;
    bq ← PyFloat.truediv b2 default_n;
    o2 ← PyFloat.square optimized_std;
    oq ← PyFloat.truediv o2 default_n;
    se ← PyFloat.sqrt (PrimFloat.add bq oq);
    if PyFloat.is_zero se then Ok (0%float, "")
    else
      t ← PyFloat.truediv
            (PrimFloat.abs (PrimFloat.sub baseline_mean optimized_mean)) se;
      if PyFloat.gt t 3.85%float then Ok (t, "***")
      else if PyFloat.gt t 2.85%float then Ok (t, "**")
      else if PyFloat.gt t 2.09%float then Ok (t, "*")
      else if PyFloat.gt t 1.68%float then Ok (t, ".")
      else Ok (t, "").

(** [compute_significance] over the platform's [pow]: the same function,
    with the two squares left to [pow].  [compute_significance] above is
    this function for a [pow] that rounds the square correctly. *)
Definition compute_significance_with (pow : libm_pow)
    (baseline_mean baseline_std optimized_mean optimized_std : float)
    : result (float * string) :=
  if PyFloat.is_zero baseline_std && PyFloat.is_zero optimized_std
  then Ok (0%float, "")
  else
    b2 ← PyFloat.pow_two pow baseline_std;
    bq ← PyFloat.truediv b2 default_n;
    o2 ← PyFloat.pow_two pow optimized_std;
    oq ← PyFloat.truediv o2 default_n;
    se ← PyFloat.sqrt (PrimFloat.add bq oq);
    if PyFloat.is_zero se then Ok (0%float, "")
    else
      t ← PyFloat.truediv
            (PrimFloat.abs (PrimFloat.sub baseline_mean optimized_mean)) se;
      if PyFloat.gt t 3.85%float then Ok (t, "***")
      else if PyFloat.gt t 2.85%float then Ok (t, "**")
      else if PyFloat.gt t 2.09%float then Ok (t, "*")
      else if PyFloat.gt t 1.68%float then Ok (t, ".")
      else Ok (t, "").

(** A [pow] that rounds the square correctly and leaves [errno] alone,
    at the exponent 2, the only one of the script. *)
Definition rounded_pow : libm_pow :=
  fun x _ => (PrimFloat.mul x x, no_error).

(** ** Python's string operations *)

Module PyStr.

(** [s.endswith(suffix)]: some tail of [s] is [suffix]. *)
Fixpoint endswith (s suffix : string) : bool :=
  if String.eqb s suffix then true
  else match s with
       | EmptyString => false
       | String _ s' => endswith s' suffix
       end.

(** [s[:-k]]: all but the last [k] characters ([s[:0]] when [k = 0]). *)
Definition drop_last (k : nat) (s : string) : string :=
  match k with
  | O => ""
  | S _ => String.substring 0 (String.length s - k) s
  end.

End PyStr.

(** ** Aggregator *)

(** A measurement record of the input: a JSON object with a [name], which
    [extract_results] requires, and with [real_time] and [cpu_time], which
    may be absent. *)
Record bench : Type := {
  name : string;
  real_time : option float;
  cpu_time : option float
}.

(** The top-level JSON object, with its [benchmarks] entry when it has one. *)
Record document : Type := {
  benchmarks : option (list bench)
}.

Abbreviation bundle := (gmap string float).
Abbreviation result_set := (gmap string (gmap string float)).

(** [d[k]] *)
Definition getitem {V} (d : gmap string V) (k : string) : result V :=
  match d !! k with
  | Some v => Ok v
  | None => Raise (KeyError k)
  end.

(** [bench.get(field, 0)] *)
Definition get_or_zero (field : option float) : float :=
  default 0%float field.

(** [results[base_name][field] = v], used where [base_name] is a key of
    [results]. *)
Definition set_field (results : result_set) (base_name field : string)
    (v : float) : result_set :=
  alter (insert field v) base_name results.

Definition suffixes : list string := ["_mean"; "_median"; "_stddev"; "_cv"].

(** The inner loop of [extract_results] (lines 27-30): the first suffix of
    the list that ends [base_name] is cut off, and the loop breaks. *)
Fixpoint strip_suffix (sufs : list string) (base_name : string) : string :=
  match sufs with
  | [] => base_name
  | suffix :: rest =>
      if PyStr.endswith base_name suffix
      then PyStr.drop_last (String.length suffix) base_name
      else strip_suffix rest base_name
  end.

(** One iteration of the outer loop of [extract_results] (lines 24-47). *)
Definition extract_record (results : result_set) (b : bench) : result_set :=
  let base_name := strip_suffix suffixes (name b) in
  let results :=
    match results !! base_name with
    | None => <[base_name := ∅]> results
    | Some _ => results
    end in
  if PyStr.endswith (name b) "_mean" then
    let results := set_field results base_name "mean_time" (get_or_zero (real_time b)) in
    set_field results base_name "mean_cpu" (get_or_zero (cpu_time b))
  else if PyStr.endswith (name b) "_stddev" then
    let results := set_field results base_name "stddev_time" (get_or_zero (real_time b)) in
    set_field results base_name "stddev_cpu" (get_or_zero (cpu_time b))
  else if PyStr.endswith (name b) "_median" then
    let results := set_field results base_name "median_time" (get_or_zero (real_time b)) in
    set_field results base_name "median_cpu" (get_or_zero (cpu_time b))
  else if PyStr.endswith (name b) "_cv" then
    let results := set_field results base_name "cv_time" (get_or_zero (real_time b)) in
    set_field results base_name "cv_cpu" (get_or_zero (cpu_time b))
  else results.

(** The outer loop, from a given dictionary of results. *)
Definition extract_records (records : list bench) (results : result_set)
    : result_set :=
  fold_left extract_record records results.

Definition extract_results (data : document) : result result_set :=
  match benchmarks data with
  | None => Raise (KeyError "benchmarks")
  | Some records => Ok (extract_records records ∅)
  end.

(** ** Output and effects *)

(** A printed line.  Lines of fixed text are kept as they are; a line that
    formats numbers keeps the values that are formatted. *)
Inductive line : Type :=
| Text (s : string)
| TableRow (name : string) (time_change cpu_change : float)
           (sig_marker : string) (t_stat : float)
| ImprovementLine (name : string) (change : float) (sig : string)
| AverageLine (avg_improvement : float).

Inductive event : Type :=
| Open (filename : string)
| Print (l : line).

(** A computation with effects: the events it performed, and how it ended. *)
Definition prog (A : Type) : Type := (list event * result A)%type.

#[global] Instance prog_ret : MRet prog := fun A a => ([], Ok a).

#[global] Instance prog_bind : MBind prog := fun A B k p =>
  match p.2 with
  | Ok a => (p.1 ++ (k a).1, (k a).2)
  | Raise e => (p.1, Raise e)
  end.

Definition lift {A} (r : result A) : prog A := ([], r).
Definition print (l : line) : prog unit := ([Print l], Ok tt).

(** ** Loader *)

(** What opening and parsing each file gives. *)
Definition filesystem : Type := string -> result document.

Definition load_benchmark (fs : filesystem) (filename : string)
    : prog document :=
  ([Open filename], fs filename).

(** ** Reporter *)

Module Fmt.

(** [ch * n] *)
Fixpoint repeat (ch : string) (n : nat) : string :=
  match n with
  | O => ""
  | S n => ch +:+ repeat ch n
  end.

(** [{s:<w}] *)
Definition ljust (w : nat) (s : string) : string :=
  s +:+ repeat " " (w - String.length s).

End Fmt.

Definition rule : string := Fmt.repeat "=" 100.

Definition header : string :=
  Fmt.ljust 50 "Benchmark" +:+ " " +:+ Fmt.ljust 12 "Time" +:+ " " +:+
  Fmt.ljust 12 "CPU" +:+ " " +:+ Fmt.ljust 12 "Significance".

Record comparison : Type := {
  time_change : float;
  cpu_change : float;
  t_stat : float;
  sig_marker : string
}.

(** [k in d] *)
Definition contains {V} (d : gmap string V) (k : string) : bool :=
  bool_decide (is_Some (d !! k)).

(** The percentage changes and the significance of one benchmark (lines
    108-117); each subscript is a lookup that may raise, in the order in
    which Python evaluates them. *)
Definition compare_bundles (baseline optimized : bundle) : result comparison :=
  o_time ← getitem optimized "mean_time";
  b_time ← getitem baseline "mean_time";
  d_time ← getitem baseline "mean_time";
  q_time ← PyFloat.truediv (PrimFloat.sub o_time b_time) d_time;
  let time_change := PrimFloat.mul q_time 100%float in
  o_cpu ← getitem optimized "mean_cpu";
  b_cpu ← getitem baseline "mean_cpu";
  d_cpu ← getitem baseline "mean_cpu";
  q_cpu ← PyFloat.truediv (PrimFloat.sub o_cpu b_cpu) d_cpu;
  let cpu_change := PrimFloat.mul q_cpu 100%float in
  b_mean ← getitem baseline "mean_cpu";
  let b_std := default 0%float (baseline !! "stddev_cpu") in
  o_mean ← getitem optimized "mean_cpu";
  let o_std := default 0%float (optimized !! "stddev_cpu") in
  ts ← compute_significance b_mean b_std o_mean o_std;
  Ok {| time_change := time_change; cpu_change := cpu_change;
        t_stat := ts.1; sig_marker := ts.2 |}.

Abbreviation improvement := (string * float * string)%type.

(** [cpu_change < -2.0 and sig_marker in ['*', '**', '***']] *)
Definition is_significant_improvement (c : comparison) : bool :=
  PyFloat.lt (cpu_change c) (-2)%float &&
  bool_decide (sig_marker c ∈ ["*"; "**"; "***"]).

(** One iteration of the loop over the sorted names (lines 97-127), from
    the list of improvements so far to the list after it. *)
Definition compare_name (baseline_results optimized_results : result_set)
    (nm : string) (significant_improvements : list improvement)
    : prog (list improvement) :=
  if negb (contains optimized_results nm) then mret significant_improvements
  else
    baseline ← lift (getitem baseline_results nm);
    optimized ← lift (getitem optimized_results nm);
    if negb (contains baseline "mean_cpu") || negb (contains optimized "mean_cpu")
    then mret significant_improvements
    else
      c ← lift (compare_bundles baseline optimized);
      print (TableRow nm (time_change c) (cpu_change c) (sig_marker c) (t_stat c));;
      if is_significant_improvement c
      then mret (significant_improvements ++ [(nm, cpu_change c, sig_marker c)])
      else mret significant_improvements.

Fixpoint compare_names (baseline_results optimized_results : result_set)
    (names : list string) (significant_improvements : list improvement)
    : prog (list improvement) :=
  match names with
  | [] => mret significant_improvements
  | nm :: names =>
      acc ← compare_name baseline_results optimized_results nm
              significant_improvements;
      compare_names baseline_results optimized_results names acc
  end.

(** [sorted(d.keys())]: the keys are distinct, so every sorting algorithm
    gives the same list. *)
Definition sorted_keys {V} (d : gmap string V) : list string :=
  merge_sort String.le (elements (dom d)).

(** [sum(changes)]: the additions from the left, starting from 0.  (CPython
    3.12 and later also carry a correction for the rounding of each
    addition, which is left out.) *)
Definition py_sum (changes : list float) : float :=
  fold_left PrimFloat.add changes 0%float.

(** [float(len(l))] *)
Definition float_of_len (n : nat) : float :=
  SF2Prim (binary_normalize prec emax (Z.of_nat n) 0 false).

Fixpoint print_improvements (l : list improvement) : prog unit :=
  match l with
  | [] => mret tt
  | (nm, change, sig) :: l =>
      print (ImprovementLine nm change sig);; print_improvements l
  end.

(** The summary after the legend (lines 138-154).  The list is not empty
    where its length divides, so that division does not raise. *)
Definition print_summary (significant_improvements : list improvement)
    : prog unit :=
  match significant_improvements with
  | _ :: _ =>
      print (Text rule);;
      print (Text "SIGNIFICANT IMPROVEMENTS (CPU time):");;
      print (Text rule);;
      print_improvements significant_improvements;;
      print (Text "");;
      let avg_improvement :=
        PrimFloat.div (py_sum (map (fun i => i.1.2) significant_improvements))
                      (float_of_len (length significant_improvements)) in
      print (AverageLine avg_improvement)
  | [] =>
      print (Text rule);;
      print (Text "NO STATISTICALLY SIGNIFICANT IMPROVEMENTS DETECTED");;
      print (Text rule);;
      print (Text "");;
      print (Text "Note: For gains < 3%, statistical significance (p < 0.05) is required.");;
      print (Text "      Without significance markers (* ** ***), gains may be noise.")
  end.

Definition print_legend : prog unit :=
  print (Text rule);;
  print (Text "");;
  print (Text "Significance markers:");;
  print (Text "  *** = p < 0.001 (Very significant)");;
  print (Text "  **  = p < 0.01  (Significant)");;
  print (Text "  *   = p < 0.05  (Marginally significant)");;
  print (Text "  .   = p < 0.10  (Not significant)");;
  print (Text "").

(** [compare_benchmarks] once both result sets are extracted (lines
    90-154). *)
Definition report (baseline_results optimized_results : result_set)
    : prog unit :=
  print (Text rule);;
  print (Text header);;
  print (Text rule);;
  significant_improvements ←
    compare_names baseline_results optimized_results
      (sorted_keys baseline_results) [];
  print_legend;;
  print_summary significant_improvements.

Definition compare_benchmarks (fs : filesystem)
    (baseline_file optimized_file : string) : prog unit :=
  baseline_data ← load_benchmark fs baseline_file;
  optimized_data ← load_benchmark fs optimized_file;
  baseline_results ← lift (extract_results baseline_data);
  optimized_results ← lift (extract_results optimized_data);
  report baseline_results optimized_results.

(** ** Entry point *)

Definition usage : string :=
  "Usage: python compare_benchmarks.py baseline.json optimized.json".

(** [sys.argv[i]] *)
Definition argv_item (argv : list string) (i : nat) : result string :=
  match argv !! i with
  | Some a => Ok a
  | None => Raise IndexError
  end.

(** The script run with [sys.argv = argv]. *)
Definition main (fs : filesystem) (argv : list string) : prog unit :=
  if negb (length argv =? 3)%nat then
    print (Text usage);;
    lift (Raise (SystemExit 1))
  else
    baseline_file ← lift (argv_item argv 1);
    optimized_file ← lift (argv_item argv 2);
    compare_benchmarks fs baseline_file optimized_file.

(** * Notions used in the statements *)

(** The sign bit of a value is clear (not-a-number counts as clear). *)
Definition sign_clear (f : spec_float) : bool :=
  match f with
  | S754_zero s | S754_infinity s | S754_finite s _ _ => negb s
  | S754_nan => true
  end.

(** The marker of a t-statistic as the thresholds give it: the tiers are
    tried from the highest down, each with a strict comparison, and the
    first that holds decides. *)
Definition marker_for (t : float) : string :=
  if PyFloat.gt t 3.85%float then "***"
  else if PyFloat.gt t 2.85%float then "**"
  else if PyFloat.gt t 2.09%float then "*"
  else if PyFloat.gt t 1.68%float then "."
  else "".

(** The rules of the routing, in the order of the suffix list: a suffix
    with the two fields it fills. *)
Definition rules : list (string * (string * string)) :=
  [ ("_mean", ("mean_time", "mean_cpu"));
    ("_median", ("median_time", "median_cpu"));
    ("_stddev", ("stddev_time", "stddev_cpu"));
    ("_cv", ("cv_time", "cv_cpu")) ].

(** The first rule whose suffix ends the name. *)
Definition first_rule (nm : string) : option (string * (string * string)) :=
  List.find (fun r => PyStr.endswith nm r.1) rules.

(** The logical name of a record. *)
Definition logical_name (b : bench) : string :=
  strip_suffix suffixes (name b).

Definition kinds : list string := ["mean"; "median"; "stddev"; "cv"].

(** For each kind of statistic, a bundle has the time field exactly when it
    has the cpu field. *)
Definition paired (bd : bundle) : Prop :=
  forall kind, kind ∈ kinds ->
    is_Some (bd !! (kind +:+ "_time")) <-> is_Some (bd !! (kind +:+ "_cpu")).

Definition all_paired (results : result_set) : Prop :=
  forall nm bd, results !! nm = Some bd -> paired bd.

(** The bundles of the example: CPU time goes from 100 to 90, with a
    standard deviation of 2 on both sides. *)
Definition example_baseline : bundle :=
  <["mean_time" := 100%float]>
    (<["mean_cpu" := 100%float]> (<["stddev_cpu" := 2%float]> ∅)).

Definition example_optimized : bundle :=
  <["mean_time" := 90%float]>
    (<["mean_cpu" := 90%float]> (<["stddev_cpu" := 2%float]> ∅)).

(** The benchmark of a table row. *)
Definition row_name (e : event) : option string :=
  match e with
  | Print (TableRow nm _ _ _ _) => Some nm
  | _ => None
  end.

(** The benchmarks of the table rows of an output, in the order printed. *)
Definition row_names (out : list event) : list string := omap row_name out.

(** A name of the baseline is also in the optimized result set, and both
    its bundles have a mean_cpu. *)
Definition eligible (baseline_results optimized_results : result_set)
    (nm : string) : bool :=
  match baseline_results !! nm, optimized_results !! nm with
  | Some baseline, Some optimized =>
      contains baseline "mean_cpu" && contains optimized "mean_cpu"
  | _, _ => false
  end.

(** A table row whose CPU change is below -2.0 and whose marker is one,
    two or three stars, as an entry of the list of improvements. *)
Definition improvement_of (e : event) : option improvement :=
  match e with
  | Print (TableRow nm _ cpu m _) =>
      if PrimFloat.ltb cpu (-2)%float && bool_decide (m ∈ ["*"; "**"; "***"])
      then Some (nm, cpu, m)
      else None
  | _ => None
  end.

Definition improvements_of (out : list event) : list improvement :=
  omap improvement_of out.

Definition heading : list event :=
  [Print (Text rule); Print (Text header); Print (Text rule)].

(** The lines of the summary for a list of improvements: the list and the
    mean of the changes when there is an improvement, and the notice with
    its two lines of guidance when there is none. *)
Definition summary_lines (l : list improvement) : list line :=
  match l with
  | _ :: _ =>
      [Text rule; Text "SIGNIFICANT IMPROVEMENTS (CPU time):"; Text rule] ++
      map (fun i => ImprovementLine i.1.1 i.1.2 i.2) l ++
      [Text "";
       AverageLine
         (PrimFloat.div (py_sum (map (fun i => i.1.2) l))
                        (float_of_len (length l)))]
  | [] =>
      [Text rule;
       Text "NO STATISTICALLY SIGNIFICANT IMPROVEMENTS DETECTED";
       Text rule;
       Text "";
       Text "Note: For gains < 3%, statistical significance (p < 0.05) is required.";
       Text "      Without significance markers (* ** ***), gains may be noise."]
  end.

(** A record named A_mean without times: both means of A are 0. *)
Definition zero_mean_records : list bench :=
  [ {| name := "A_mean"; real_time := None; cpu_time := None |} ].

(** Benchmark A improves by ten percent with three stars; benchmark B,
    which comes after it, has no times and so a baseline mean of 0. *)
Definition crash_records (mean : float) : list bench :=
  [ {| name := "A_mean"; real_time := Some mean; cpu_time := Some mean |};
    {| name := "A_stddev"; real_time := Some 2%float; cpu_time := Some 2%float |};
    {| name := "B_mean"; real_time := None; cpu_time := None |} ].

(** What a record does to the bundle of its logical name: it sets the two
    fields of the first rule that matches its name, and nothing without a
    rule. *)
Definition fill (b : bench) (bd : bundle) : bundle :=
  match first_rule (name b) with
  | Some (_, (f_time, f_cpu)) =>
      <[f_cpu := get_or_zero (cpu_time b)]>
        (<[f_time := get_or_zero (real_time b)]> bd)
  | None => bd
  end.

(** [results[nm][f]], when [nm] is a key of [results] and [f] a field of its
    bundle. *)
Definition field_of (results : result_set) (nm f : string) : option float :=
  results !! nm ≫= (.!! f).

(** A value is a zero of either sign, or not a number. *)
Definition zero_or_nan (f : spec_float) : bool :=
  match f with
  | S754_zero _ | S754_nan => true
  | _ => false
  end.

(** The two bundles of a name that passes both guards of the loop. *)
Definition compared (baseline_results optimized_results : result_set)
    (nm : string) (baseline optimized : bundle) : Prop :=
  baseline_results !! nm = Some baseline /\
  optimized_results !! nm = Some optimized /\
  is_Some (baseline !! "mean_cpu") /\ is_Some (optimized !! "mean_cpu").

(** What every table row of a self-comparison is like. *)
Definition flat_row (e : event) : Prop :=
  match e with
  | Print (TableRow _ tc cc m _) =>
      m = "" /\
      PrimFloat.ltb tc 0%float = false /\ PrimFloat.ltb 0%float tc = false /\
      PrimFloat.ltb cc 0%float = false /\ PrimFloat.ltb 0%float cc = false /\
      PrimFloat.ltb cc (-2)%float = false
  | _ => True
  end.

(** A name ends with a suffix. *)
Definition ends_with (nm suffix : string) : Prop :=
  exists p, nm = p +:+ suffix.

(** [X] is the logical name of a record named [nm]: [nm] is [X] followed by
    one of the four suffixes, or [nm] is [X] itself and ends with none of
    them. *)
Definition logical_name_of (nm X : string) : Prop :=
  (exists suffix,
     suffix ∈ ["_mean"; "_median"; "_stddev"; "_cv"] /\ nm = X +:+ suffix) \/
  (nm = X /\
   forall suffix,
     suffix ∈ ["_mean"; "_median"; "_stddev"; "_cv"] -> ~ ends_with nm suffix).

(** What CPython expects of [pow] at a positive base and the exponent 2:
    no error other than a range error, and no value below zero. *)
Definition well_behaved (pow : libm_pow) : Prop :=
  forall x, PrimFloat.ltb 0%float x = true ->
    (pow x 2%float).2 <> other_errno /\
    PrimFloat.ltb (pow x 2%float).1 0%float = false.

(** A base that [x ** 2] hands to [pow]: a number that is finite and
    neither 0 nor 1 nor -1. *)
Definition ordinary (x : float) : bool :=
  negb (PrimFloat.is_nan x) && negb (PrimFloat.is_infinity x) &&
  negb (PrimFloat.eqb x 0%float) &&
  negb (PrimFloat.eqb (PrimFloat.abs x) 1%float).

(** The value of [x ** 2] where it has one: what [pow] returns for the
    absolute value of an ordinary base, and for the other bases the base
    itself when it is not a number, infinity for an infinity, 0 for a zero
    and 1 for 1 and -1. *)
Definition squared (pow : libm_pow) (x : float) : float :=
  if ordinary x then (pow (PrimFloat.abs x) 2%float).1
  else if PrimFloat.is_nan x then x
  else if PrimFloat.is_infinity x then infinity
  else if PrimFloat.eqb x 0%float then 0%float
  else 1%float.

(** [x ** 2] is out of the float range: for an ordinary base, [pow]
    returns an infinity without an error, or reports a range error with a
    value that is not zero. *)
Definition out_of_range (pow : libm_pow) (x : float) : bool :=
  ordinary x &&
  match (pow (PrimFloat.abs x) 2%float).2 with
  | no_error => PrimFloat.is_infinity (pow (PrimFloat.abs x) 2%float).1
  | ERANGE => negb (PrimFloat.eqb (pow (PrimFloat.abs x) 2%float).1 0%float)
  | other_errno => false
  end.

(** * Facts about binary64 arithmetic *)

Module FloatFacts.

Lemma sign_clear_round_aux m e l :
  sign_clear (binary_round_aux prec emax false m e l) = true.
Proof.
  unfold binary_round_aux.
  destruct (shr_fexp prec emax m e l) as [mrs' e'].
  destruct (shr_fexp prec emax _ e' loc_Exact) as [mrs'' e''].
  destruct (shr_m mrs''); [reflexivity| |reflexivity].
  destruct (Z.leb e'' (Z.sub emax prec)); reflexivity.
Qed.

Lemma sign_clear_mul_self x : sign_clear (SF64mul x x) = true.
Proof.
  destruct x as [s|s| |s m e]; simpl; try reflexivity;
    try (destruct s; reflexivity).
  replace (xorb s s) with false by (destruct s; reflexivity).
  apply sign_clear_round_aux.
Qed.

Lemma sign_clear_div x m e :
  sign_clear x = true ->
  sign_clear (SF64div x (S754_finite false m e)) = true.
Proof.
  destruct x as [s|s| |s mx ex]; simpl; intros Hx;
    try (destruct s; [discriminate | reflexivity]); try reflexivity.
  destruct s; [discriminate|]. simpl.
  destruct (SFdiv_core_binary prec emax (Zpos mx) ex (Zpos m) e) as [[mz ez] lz].
  apply sign_clear_round_aux.
Qed.

Lemma sign_clear_add x y :
  sign_clear x = true -> sign_clear y = true ->
  sign_clear (SF64add x y) = true.
Proof.
  destruct x as [sx|sx| |sx mx ex], y as [sy|sy| |sy my ey]; simpl;
    intros Hx Hy; try reflexivity; try assumption;
    try (destruct sx; [discriminate|]); try (destruct sy; [discriminate|]);
    try reflexivity.
  simpl.
  destruct (shl_align mx ex (Z.min ex ey)) as [mz ez].
  destruct (shl_align my ey (Z.min ex ey)) as [mz' ez']. simpl.
  unfold binary_round.
  match goal with |- context [shl_align ?a ?b ?c] =>
    destruct (shl_align a b c) as [mz'' ez''] end.
  apply sign_clear_round_aux.
Qed.

Lemma sign_clear_not_neg x :
  sign_clear x = true -> SFltb x (S754_zero false) = false.
Proof.
  destruct x as [s|s| |s m e]; simpl; intros Hx; try reflexivity;
    destruct s; try discriminate; reflexivity.
Qed.

(** [a**2 / 20 + b**2 / 20] is never below zero. *)
Lemma mean_square_not_neg (a b : float) :
  PrimFloat.ltb
    (PrimFloat.add (PrimFloat.div (PrimFloat.mul a a) 20%float)
                   (PrimFloat.div (PrimFloat.mul b b) 20%float))
    0%float = false.
Proof.
  rewrite FloatAxioms.ltb_spec, add_spec, !div_spec, !mul_spec.
  change (Prim2SF 0%float) with (S754_zero false).
  assert (H20 : Prim2SF 20%float = S754_finite false 5629499534213120 (-48))
    by (vm_compute; reflexivity).
  rewrite H20.
  apply sign_clear_not_neg, sign_clear_add; apply sign_clear_div, sign_clear_mul_self.
Qed.

(** Equality by [==] with a finite non-zero value is equality. *)
Lemma eqb_finite_eq (t c : float) s m e :
  Prim2SF c = S754_finite s m e ->
  PrimFloat.eqb t c = true -> t = c.
Proof.
  intros Hc Heq. apply Prim2SF_inj. rewrite Hc.
  rewrite FloatAxioms.eqb_spec, Hc in Heq. unfold SFeqb in Heq.
  destruct (Prim2SF t) as [st|st| |st mt et]; simpl in Heq;
    try discriminate; try (destruct st; discriminate);
    try (destruct s; discriminate).
  destruct st; destruct s; simpl in Heq; try discriminate.
  all: destruct (Z.compare et e) eqn:He; simpl in Heq; try discriminate.
  all: apply Z.compare_eq in He; subst et.
  all: destruct (Pos.compare_cont Eq mt m) eqn:Hm; simpl in Heq;
    try discriminate.
  all: apply Pos.compare_eq in Hm; subst mt; reflexivity.
Qed.

End FloatFacts.

(** * The Significance Estimator *)

Module Significance.

(** Dividing by the sample size never raises. *)
Lemma truediv_default_n x :
  PyFloat.truediv x default_n = Ok (PrimFloat.div x default_n).
Proof. reflexivity. Qed.

(** The squares are of the standard deviations, whatever way they end. *)
Lemma square_Ok x y : PyFloat.square x = Ok y -> y = PrimFloat.mul x x.
Proof.
  unfold PyFloat.square.
  destruct (PrimFloat.is_infinity _ && _); congruence.
Qed.

Lemma square_Raise x e : PyFloat.square x = Raise e -> e = OverflowError.
Proof.
  unfold PyFloat.square.
  destruct (PrimFloat.is_infinity _ && _); congruence.
Qed.

(** The square root of the estimator never raises. *)
Lemma sqrt_mean_square a b :
  PyFloat.sqrt
    (PrimFloat.add (PrimFloat.div (PrimFloat.mul a a) default_n)
                   (PrimFloat.div (PrimFloat.mul b b) default_n))
  = Ok (PrimFloat.sqrt
          (PrimFloat.add (PrimFloat.div (PrimFloat.mul a a) default_n)
                         (PrimFloat.div (PrimFloat.mul b b) default_n))).
Proof.
  unfold PyFloat.sqrt, default_n.
  now rewrite FloatFacts.mean_square_not_neg.
Qed.

(** The function past its first test, when both squares are in range. *)
Lemma compute_significance_regular bm bs om os :
  PyFloat.is_zero bs && PyFloat.is_zero os = false ->
  PyFloat.square bs = Ok (PrimFloat.mul bs bs) ->
  PyFloat.square os = Ok (PrimFloat.mul os os) ->
  let se := PrimFloat.sqrt
              (PrimFloat.add (PrimFloat.div (PrimFloat.mul bs bs) default_n)
                             (PrimFloat.div (PrimFloat.mul os os) default_n)) in
  compute_significance bm bs om os =
    if PyFloat.is_zero se then Ok (0%float, "")
    else let t := PrimFloat.div (PrimFloat.abs (PrimFloat.sub bm om)) se in
         Ok (t, marker_for t).
Proof.
  intros Hz Hb Ho se. unfold compute_significance.
  rewrite Hz, Hb. cbn [mbind result_bind].
  rewrite truediv_default_n. cbn [mbind result_bind].
  rewrite Ho. cbn [mbind result_bind].
  rewrite truediv_default_n. cbn [mbind result_bind].
  rewrite sqrt_mean_square. cbn [mbind result_bind]. fold se.
  destruct (PyFloat.is_zero se) eqn:Hse; [reflexivity|].
  unfold PyFloat.truediv. unfold PyFloat.is_zero in Hse. rewrite Hse.
  cbn [mbind result_bind]. unfold marker_for.
  repeat match goal with |- context [PyFloat.gt ?x ?y] =>
    destruct (PyFloat.gt x y) end; reflexivity.
Qed.

(** Whatever pair the function returns, its marker is the one of its
    t-statistic. *)
Lemma returned_marker bm bs om os t m :
  compute_significance bm bs om os = Ok (t, m) -> m = marker_for t.
Proof.
  destruct (PyFloat.is_zero bs && PyFloat.is_zero os) eqn:Hz.
  { unfold compute_significance. rewrite Hz. intros H; inversion H; reflexivity. }
  destruct (PyFloat.square bs) as [b2|e] eqn:Hb.
  2:{ unfold compute_significance. rewrite Hz, Hb. discriminate. }
  destruct (PyFloat.square os) as [o2|e] eqn:Ho.
  2:{ unfold compute_significance. rewrite Hz, Hb. cbn [mbind result_bind].
      rewrite truediv_default_n. cbn [mbind result_bind]. rewrite Ho.
      discriminate. }
  pose proof (square_Ok _ _ Hb) as ->. pose proof (square_Ok _ _ Ho) as ->.
  rewrite (compute_significance_regular _ _ _ _ Hz Hb Ho).
  destruct (PyFloat.is_zero (PrimFloat.sqrt _));
    intros H; inversion H; reflexivity.
Qed.

(** C1: whatever t-statistic [compute_significance] returns, the marker
    returned with it is fixed by the thresholds tried in descending order
    with a strict comparison, the first match winning: above 3.85 three
    stars, else above 2.85 two stars, else above 2.09 one star, else above
    1.68 a dot, and else the empty string. *)
Theorem marker_by_thresholds bm bs om os t m :
  compute_significance bm bs om os = Ok (t, m) ->
  m = (if PrimFloat.ltb 3.85%float t then "***"
       else if PrimFloat.ltb 2.85%float t then "**"
       else if PrimFloat.ltb 2.09%float t then "*"
       else if PrimFloat.ltb 1.68%float t then "."
       else "").
Proof. intros H. exact (returned_marker _ _ _ _ _ _ H). Qed.

Lemma marker_by_thresholds_witness :
  "***" =
  (let t := PrimFloat.div 30%float (PrimFloat.sqrt 2.5%float) in
   if PrimFloat.ltb 3.85%float t then "***"
   else if PrimFloat.ltb 2.85%float t then "**"
   else if PrimFloat.ltb 2.09%float t then "*"
   else if PrimFloat.ltb 1.68%float t then "."
   else "").
Proof.
  apply (marker_by_thresholds 100%float 5%float 130%float 5%float).
  vm_compute. reflexivity.
Defined.

(** The input [(2.09, 2, 0, 4)] has standard error [sqrt (0.2 + 0.8) = 1]
    and so the t-statistic 2.09: it is above 1.68 and gets the dot. *)
Lemma boundary_marker_counterexample :
  compute_significance 2.09%float 2%float 0%float 4%float
    = Ok (2.09%float, ".") /\
  compute_significance 2.09%float 2%float 0%float 4%float
    <> Ok (2.09%float, "").
Proof. split; [vm_compute; reflexivity | vm_compute; discriminate]. Qed.

Ltac at_threshold H :=
  let E := fresh in
  intros E;
  eapply FloatFacts.eqb_finite_eq in E; [|reflexivity];
  rewrite E in H; rewrite H; vm_compute; reflexivity.

(** C2, amended: a t-statistic equal to a threshold does not get the
    marker of that tier but the marker of the tier below it: at 3.85 two
    stars, at 2.85 one star, at 2.09 the dot, and at 1.68 the empty
    string; the t-statistic 2.0900001 gets one star. *)
Theorem marker_at_thresholds bm bs om os t m :
  compute_significance bm bs om os = Ok (t, m) ->
  (PrimFloat.eqb t 3.85%float = true -> m = "**") /\
  (PrimFloat.eqb t 2.85%float = true -> m = "*") /\
  (PrimFloat.eqb t 2.09%float = true -> m = ".") /\
  (PrimFloat.eqb t 1.68%float = true -> m = "") /\
  (PrimFloat.eqb t 2.0900001%float = true -> m = "*").
Proof.
  intros H. apply returned_marker in H.
  repeat split; at_threshold H.
Qed.

Lemma marker_at_thresholds_witness :
  (PrimFloat.eqb 2.09%float 3.85%float = true -> "." = "**") /\
  (PrimFloat.eqb 2.09%float 2.85%float = true -> "." = "*") /\
  (PrimFloat.eqb 2.09%float 2.09%float = true -> "." = ".") /\
  (PrimFloat.eqb 2.09%float 1.68%float = true -> "." = "") /\
  (PrimFloat.eqb 2.09%float 2.0900001%float = true -> "." = "*").
Proof.
  apply (marker_at_thresholds 2.09%float 2%float 0%float 4%float).
  vm_compute. reflexivity.
Defined.

(** The only exception of the estimator is the overflow of a square. *)
Lemma raises_only_overflow bm bs om os e :
  compute_significance bm bs om os = Raise e -> e = OverflowError.
Proof.
  destruct (PyFloat.is_zero bs && PyFloat.is_zero os) eqn:Hz.
  { unfold compute_significance. rewrite Hz. discriminate. }
  destruct (PyFloat.square bs) as [b2|e'] eqn:Hb.
  2:{ unfold compute_significance. rewrite Hz, Hb. cbn [mbind result_bind].
      intros H. inversion H; subst. eauto using square_Raise. }
  destruct (PyFloat.square os) as [o2|e'] eqn:Ho.
  2:{ unfold compute_significance. rewrite Hz, Hb. cbn [mbind result_bind].
      rewrite truediv_default_n. cbn [mbind result_bind]. rewrite Ho.
      cbn [mbind result_bind].
      intros H. inversion H; subst. eauto using square_Raise. }
  pose proof (square_Ok _ _ Hb) as ->. pose proof (square_Ok _ _ Ho) as ->.
  rewrite (compute_significance_regular _ _ _ _ Hz Hb Ho).
  destruct (PyFloat.is_zero (PrimFloat.sqrt _)); discriminate.
Qed.

(** The two ways to [(0, "")], and the examples of the estimator. *)
Example both_deviations_zero :
  compute_significance 100%float 0%float 100%float 0%float = Ok (0%float, "").
Proof. reflexivity. Qed.

Example standard_error_underflows :
  PyFloat.is_zero 1e-200%float = false /\
  compute_significance 100%float 1e-200%float 130%float 0%float
    = Ok (0%float, "").
Proof. split; vm_compute; reflexivity. Qed.

Example clear_difference :
  exists t, compute_significance 100%float 5%float 130%float 5%float
            = Ok (t, "***").
Proof. eexists. vm_compute. reflexivity. Qed.

Example noisy_difference :
  exists t, compute_significance 100%float 50%float 105%float 50%float
            = Ok (t, "").
Proof. eexists. vm_compute. reflexivity. Qed.

Example just_above_threshold :
  compute_significance 2.0900001%float 2%float 0%float 4%float
    = Ok (2.0900001%float, "*").
Proof. vm_compute. reflexivity. Qed.

End Significance.


(** * The Aggregator *)

Module Aggregator.

(** ** Suffixes of strings *)

Lemma app_nil_l s : "" +:+ s = s.
Proof. reflexivity. Qed.

Lemma app_cons a p s : String a p +:+ s = String a (p +:+ s).
Proof. reflexivity. Qed.

Lemma length_app p s :
  String.length (p +:+ s) = String.length p + String.length s.
Proof.
  induction p as [|a p IH]; [reflexivity|].
  rewrite app_cons. simpl. now rewrite IH.
Qed.

Lemma substring_app p s : String.substring 0 (String.length p) (p +:+ s) = p.
Proof.
  induction p as [|a p IH].
  - rewrite app_nil_l. destruct s; reflexivity.
  - rewrite app_cons. simpl. now rewrite IH.
Qed.

Lemma endswith_unfold s suffix :
  PyStr.endswith s suffix =
  if String.eqb s suffix then true
  else match s with
       | EmptyString => false
       | String _ s' => PyStr.endswith s' suffix
       end.
Proof. destruct s; reflexivity. Qed.

Lemma endswith_refl s : PyStr.endswith s s = true.
Proof. rewrite endswith_unfold. now rewrite String.eqb_refl. Qed.

Lemma endswith_app p suffix : PyStr.endswith (p +:+ suffix) suffix = true.
Proof.
  induction p as [|a p IH].
  - apply endswith_refl.
  - rewrite app_cons, endswith_unfold, IH. now destruct (String.eqb _ _).
Qed.

Lemma endswith_inv s suffix :
  PyStr.endswith s suffix = true -> exists p, s = p +:+ suffix.
Proof.
  induction s as [|a s IH]; rewrite endswith_unfold.
  - destruct (String.eqb_spec "" suffix) as [<-|]; [|discriminate].
    now exists "".
  - destruct (String.eqb_spec (String a s) suffix) as [<-|].
    + now exists "".
    + intros [p ->]%IH. now exists (String a p).
Qed.

Lemma drop_last_app p suffix :
  suffix <> "" ->
  PyStr.drop_last (String.length suffix) (p +:+ suffix) = p.
Proof.
  intros Hne. unfold PyStr.drop_last.
  destruct (String.length suffix) as [|k] eqn:Hk.
  { destruct suffix; [congruence | discriminate]. }
  rewrite length_app, Hk.
  replace (String.length p + S k - S k) with (String.length p) by lia.
  apply substring_app.
Qed.

(** A suffix of [q +:+ b] no longer than [b] is a suffix of [b]. *)
Lemma endswith_shorter q b a :
  PyStr.endswith (q +:+ b) a = true ->
  String.length a <= String.length b ->
  PyStr.endswith b a = true.
Proof.
  induction q as [|c q IH]; [now rewrite app_nil_l|].
  rewrite app_cons, endswith_unfold.
  destruct (String.eqb_spec (String c (q +:+ b)) a) as [<-|_]; [|exact IH].
  simpl. rewrite length_app. lia.
Qed.

(** Of two suffixes of one string, the shorter is a suffix of the longer. *)
Lemma endswith_both s a b :
  PyStr.endswith s a = true -> PyStr.endswith s b = true ->
  String.length a <= String.length b ->
  PyStr.endswith b a = true.
Proof.
  intros Ha [q ->]%endswith_inv Hle. eauto using endswith_shorter.
Qed.

Lemma median_not_stddev s :
  PyStr.endswith s "_median" = true -> PyStr.endswith s "_stddev" = false.
Proof.
  intros Hm. destruct (PyStr.endswith s "_stddev") eqn:Hs; [|reflexivity].
  pose proof (endswith_both _ _ _ Hs Hm) as H. simpl in H.
  specialize (H ltac:(lia)). discriminate.
Qed.

(** ** One record *)

Lemma ensured_lookup (results : result_set) base :
  match results !! base with
  | None => <[base := ∅]> results
  | Some _ => results
  end !! base = Some (default ∅ (results !! base)).
Proof.
  destruct (results !! base) eqn:E; simpl; [exact E | apply lookup_insert_eq].
Qed.

Lemma ensured_lookup_ne (results : result_set) base other :
  other <> base ->
  match results !! base with
  | None => <[base := ∅]> results
  | Some _ => results
  end !! other = results !! other.
Proof.
  intros Hne. destruct (results !! base); [reflexivity|].
  now apply lookup_insert_ne.
Qed.

Lemma set_fields_lookup (results : result_set) base f1 v1 f2 v2 bd :
  results !! base = Some bd ->
  set_field (set_field results base f1 v1) base f2 v2 !! base
    = Some (<[f2 := v2]> (<[f1 := v1]> bd)).
Proof.
  intros E. unfold set_field. rewrite !lookup_alter_eq, E. reflexivity.
Qed.

Lemma set_fields_lookup_ne (results : result_set) base f1 v1 f2 v2 other :
  other <> base ->
  set_field (set_field results base f1 v1) base f2 v2 !! other
    = results !! other.
Proof.
  intros Hne. unfold set_field. now rewrite !lookup_alter_ne.
Qed.

(** What one record does to the bundle of its logical name, by the test
    of the routing that holds first. *)
Lemma extract_record_at (results : result_set) (b : bench) :
  let base_name := strip_suffix suffixes (name b) in
  match first_rule (name b) with
  | Some (suffix, (f_time, f_cpu)) =>
      name b = base_name +:+ suffix /\
      extract_record results b !! base_name =
        Some (<[f_cpu := get_or_zero (cpu_time b)]>
                (<[f_time := get_or_zero (real_time b)]>
                   (default ∅ (results !! base_name))))
  | None =>
      base_name = name b /\
      extract_record results b !! base_name
        = Some (default ∅ (results !! base_name))
  end.
Proof.
  destruct b as [nm rt ct]. cbv zeta.
  unfold first_rule, rules, extract_record, suffixes.
  cbn [List.find fst strip_suffix name real_time cpu_time].
  destruct (PyStr.endswith nm "_mean") eqn:Hmean.
  { destruct (endswith_inv _ _ Hmean) as [p ->].
    rewrite drop_last_app by discriminate.
    split; [reflexivity|]. apply set_fields_lookup, ensured_lookup. }
  destruct (PyStr.endswith nm "_median") eqn:Hmedian.
  { rewrite (median_not_stddev _ Hmedian).
    destruct (endswith_inv _ _ Hmedian) as [p ->].
    rewrite drop_last_app by discriminate.
    split; [reflexivity|]. apply set_fields_lookup, ensured_lookup. }
  destruct (PyStr.endswith nm "_stddev") eqn:Hstddev.
  { destruct (endswith_inv _ _ Hstddev) as [p ->].
    rewrite drop_last_app by discriminate.
    split; [reflexivity|]. apply set_fields_lookup, ensured_lookup. }
  destruct (PyStr.endswith nm "_cv") eqn:Hcv.
  { destruct (endswith_inv _ _ Hcv) as [p ->].
    rewrite drop_last_app by discriminate.
    split; [reflexivity|]. apply set_fields_lookup, ensured_lookup. }
  split; [reflexivity|]. apply ensured_lookup.
Qed.

(** A record leaves the bundles of the other names as they are. *)
Lemma extract_record_elsewhere (results : result_set) (b : bench) other :
  other <> strip_suffix suffixes (name b) ->
  extract_record results b !! other = results !! other.
Proof.
  intros Hne. unfold extract_record.
  repeat match goal with |- context [PyStr.endswith ?x ?y] =>
    destruct (PyStr.endswith x y) end;
    rewrite ?set_fields_lookup_ne by assumption;
    now apply ensured_lookup_ne.
Qed.



(** Only one suffix is cut off, and only at the end of the name. *)
Example one_suffix_only :
  strip_suffix suffixes "BM_Sort_cv_mean" = "BM_Sort_cv" /\
  strip_suffix suffixes "BM_mean_Sort" = "BM_mean_Sort" /\
  strip_suffix suffixes "_stddev" = "".
Proof. repeat split. Qed.

(** ** The whole sequence of records *)

Lemma extract_record_base (results : result_set) (b : bench) :
  is_Some (extract_record results b !! logical_name b).
Proof.
  pose proof (extract_record_at results b) as H. cbv zeta in H.
  unfold logical_name.
  destruct (first_rule (name b)) as [[suffix [f_time f_cpu]]|];
    destruct H as [_ ->]; eauto.
Qed.

Lemma dom_extract_record (results : result_set) (b : bench) :
  dom (extract_record results b) = {[ logical_name b ]} ∪ dom results.
Proof.
  apply set_eq. intros x.
  rewrite elem_of_union, elem_of_singleton, !elem_of_dom.
  destruct (decide (x = logical_name b)) as [->|Hne].
  - pose proof (extract_record_base results b). tauto.
  - rewrite (extract_record_elsewhere results b x Hne). tauto.
Qed.

Lemma dom_extract_records (records : list bench) (results : result_set) :
  dom (extract_records records results)
    = list_to_set (map logical_name records) ∪ dom results.
Proof.
  revert results. induction records as [|b records IH]; intros results.
  - simpl. set_solver.
  - unfold extract_records in *. simpl. rewrite IH, dom_extract_record.
    set_solver.
Qed.

(** ** Fields come in pairs *)

Ltac join_strings :=
  repeat match goal with
  | |- context [String.append ?a ?b] =>
      let r := eval vm_compute in (String.append a b) in
      change (String.append a b) with r
  | H : context [String.append ?a ?b] |- _ =>
      let r := eval vm_compute in (String.append a b) in
      change (String.append a b) with r in H
  end.

Ltac in_kinds H :=
  unfold kinds in H;
  repeat (apply elem_of_cons in H as [->|H]);
  [..|apply elem_of_nil in H; destruct H].

Lemma paired_empty : paired ∅.
Proof. intros kind _. split; intros [? H]; now rewrite lookup_empty in H. Qed.

Lemma paired_insert (bd : bundle) kind v1 v2 :
  kind ∈ kinds -> paired bd ->
  paired (<[kind +:+ "_cpu" := v2]> (<[kind +:+ "_time" := v1]> bd)).
Proof.
  intros Hkind Hbd k Hk. specialize (Hbd k Hk).
  in_kinds Hkind; in_kinds Hk; join_strings;
    rewrite !lookup_insert; repeat case_decide; try congruence;
    eauto; split; eauto.
Qed.

Lemma first_rule_fields nm suffix f_time f_cpu :
  first_rule nm = Some (suffix, (f_time, f_cpu)) ->
  exists kind, kind ∈ kinds /\
    f_time = kind +:+ "_time" /\ f_cpu = kind +:+ "_cpu".
Proof.
  unfold first_rule, rules, kinds. cbn [List.find fst].
  repeat match goal with |- context [PyStr.endswith ?x ?y] =>
    destruct (PyStr.endswith x y) end;
    intros H; inversion H; subst;
    [exists "mean"|exists "median"|exists "stddev"|exists "cv"];
    (split; [set_solver | split; reflexivity]).
Qed.

Lemma all_paired_extract_record (results : result_set) (b : bench) :
  all_paired results -> all_paired (extract_record results b).
Proof.
  intros Hres nm bd Hnm.
  destruct (decide (nm = logical_name b)) as [->|Hne].
  2:{ rewrite (extract_record_elsewhere results b nm Hne) in Hnm. eauto. }
  assert (paired (default ∅ (results !! logical_name b))) as Hold.
  { destruct (results !! logical_name b) eqn:E; simpl; eauto using paired_empty. }
  pose proof (extract_record_at results b) as H. cbv zeta in H.
  fold (logical_name b) in H.
  destruct (first_rule (name b)) as [[suffix [f_time f_cpu]]|] eqn:Hrule.
  - destruct H as [_ H]. rewrite H in Hnm. inversion Hnm; subst bd.
    destruct (first_rule_fields _ _ _ _ Hrule) as (kind & Hkind & -> & ->).
    now apply paired_insert.
  - destruct H as [_ H]. rewrite H in Hnm. now inversion Hnm; subst bd.
Qed.

Lemma all_paired_extract_records (records : list bench) (results : result_set) :
  all_paired results -> all_paired (extract_records records results).
Proof.
  revert results. induction records as [|b records IH]; intros results Hres;
    [exact Hres|].
  apply IH, all_paired_extract_record, Hres.
Qed.

Lemma all_paired_empty : all_paired ∅.
Proof. intros nm bd H. now rewrite lookup_empty in H. Qed.

End Aggregator.


(** * The Reporter *)

Module Reporter.

(** ** One benchmark *)

Lemma compare_bundles_means (baseline optimized : bundle)
    b_time o_time b_cpu o_cpu :
  baseline !! "mean_time" = Some b_time ->
  optimized !! "mean_time" = Some o_time ->
  baseline !! "mean_cpu" = Some b_cpu ->
  optimized !! "mean_cpu" = Some o_cpu ->
  compare_bundles baseline optimized =
    if PyFloat.is_zero b_time then Raise ZeroDivisionError
    else if PyFloat.is_zero b_cpu then Raise ZeroDivisionError
    else
      match compute_significance
              b_cpu (default 0%float (baseline !! "stddev_cpu"))
              o_cpu (default 0%float (optimized !! "stddev_cpu")) with
      | Ok ts =>
          Ok {| time_change :=
                  PrimFloat.mul
                    (PrimFloat.div (PrimFloat.sub o_time b_time) b_time)
                    100%float;
                cpu_change :=
                  PrimFloat.mul
                    (PrimFloat.div (PrimFloat.sub o_cpu b_cpu) b_cpu)
                    100%float;
                t_stat := ts.1; sig_marker := ts.2 |}
      | Raise e => Raise e
      end.
Proof.
  intros Hbt Hot Hbc Hoc. unfold compare_bundles, getitem.
  rewrite Hbt, Hot, Hbc, Hoc. cbn [mbind result_bind].
  unfold PyFloat.truediv, PyFloat.is_zero.
  destruct (PrimFloat.eqb b_time 0); [reflexivity|]. cbn [mbind result_bind].
  destruct (PrimFloat.eqb b_cpu 0); [reflexivity|]. cbn [mbind result_bind].
  destruct (compute_significance _ _ _ _); reflexivity.
Qed.

(** C7: for a compared benchmark, with the means of both bundles named,
    the Reporter fails with ZeroDivisionError exactly when the baseline
    mean_time or the baseline mean_cpu is zero; what it returns has
    [time_change = (optimized.mean_time - baseline.mean_time) /
    baseline.mean_time * 100], the same of mean_cpu as [cpu_change], and the
    t-statistic and marker that [compute_significance] gives for the two
    mean_cpu with the two stddev_cpu, each 0 when absent; and it does return
    that whenever no baseline mean is zero and the estimator returns. *)
Theorem percentage_changes (baseline optimized : bundle)
    b_time o_time b_cpu o_cpu :
  baseline !! "mean_time" = Some b_time ->
  optimized !! "mean_time" = Some o_time ->
  baseline !! "mean_cpu" = Some b_cpu ->
  optimized !! "mean_cpu" = Some o_cpu ->
  let estimate :=
    compute_significance
      b_cpu (default 0%float (baseline !! "stddev_cpu"))
      o_cpu (default 0%float (optimized !! "stddev_cpu")) in
  let time_pct :=
    PrimFloat.mul (PrimFloat.div (PrimFloat.sub o_time b_time) b_time)
                  100%float in
  let cpu_pct :=
    PrimFloat.mul (PrimFloat.div (PrimFloat.sub o_cpu b_cpu) b_cpu)
                  100%float in
  (compare_bundles baseline optimized = Raise ZeroDivisionError <->
   PrimFloat.eqb b_time 0%float = true \/ PrimFloat.eqb b_cpu 0%float = true) /\
  (forall c, compare_bundles baseline optimized = Ok c ->
     time_change c = time_pct /\ cpu_change c = cpu_pct /\
     estimate = Ok (t_stat c, sig_marker c)) /\
  (PrimFloat.eqb b_time 0%float = false ->
   PrimFloat.eqb b_cpu 0%float = false ->
   forall t m, estimate = Ok (t, m) ->
     compare_bundles baseline optimized =
       Ok {| time_change := time_pct; cpu_change := cpu_pct;
             t_stat := t; sig_marker := m |}).
Proof.
  intros Hbt Hot Hbc Hoc estimate time_pct cpu_pct.
  rewrite (compare_bundles_means _ _ _ _ _ _ Hbt Hot Hbc Hoc).
  fold estimate time_pct cpu_pct. unfold PyFloat.is_zero.
  destruct (PrimFloat.eqb b_time 0) eqn:Et.
  { repeat split; auto; discriminate. }
  destruct (PrimFloat.eqb b_cpu 0) eqn:Ec.
  { repeat split; auto; discriminate. }
  destruct estimate as [[t m]|e] eqn:Ee.
  - repeat split; try discriminate.
    + intros [?|?]; discriminate.
    + inversion H; reflexivity.
    + inversion H; reflexivity.
    + inversion H; reflexivity.
    + intros _ _ t' m' H. now inversion H.
  - repeat split; try discriminate.
    + intros H. inversion H; subst.
      apply Significance.raises_only_overflow in Ee. discriminate.
    + intros [?|?]; discriminate.
Qed.

Lemma percentage_changes_witness :
  (compare_bundles example_baseline example_optimized = Raise ZeroDivisionError <->
   PrimFloat.eqb 100%float 0%float = true \/ PrimFloat.eqb 100%float 0%float = true) /\
  (forall c, compare_bundles example_baseline example_optimized = Ok c ->
     time_change c
       = PrimFloat.mul (PrimFloat.div (PrimFloat.sub 90%float 100%float) 100%float)
                       100%float /\
     cpu_change c
       = PrimFloat.mul (PrimFloat.div (PrimFloat.sub 90%float 100%float) 100%float)
                       100%float /\
     compute_significance
       100%float (default 0%float (example_baseline !! "stddev_cpu"))
       90%float (default 0%float (example_optimized !! "stddev_cpu"))
       = Ok (t_stat c, sig_marker c)) /\
  (PrimFloat.eqb 100%float 0%float = false ->
   PrimFloat.eqb 100%float 0%float = false ->
   forall t m,
     compute_significance
       100%float (default 0%float (example_baseline !! "stddev_cpu"))
       90%float (default 0%float (example_optimized !! "stddev_cpu"))
       = Ok (t, m) ->
     compare_bundles example_baseline example_optimized =
       Ok {| time_change :=
               PrimFloat.mul
                 (PrimFloat.div (PrimFloat.sub 90%float 100%float) 100%float)
                 100%float;
             cpu_change :=
               PrimFloat.mul
                 (PrimFloat.div (PrimFloat.sub 90%float 100%float) 100%float)
                 100%float;
             t_stat := t; sig_marker := m |}).
Proof.
  apply (percentage_changes example_baseline example_optimized
           100%float 90%float 100%float 90%float); reflexivity.
Defined.

(** The example in numbers: ten percent less, three stars. *)
Example example_comparison :
  exists t, compare_bundles example_baseline example_optimized =
    Ok {| time_change := (-10)%float; cpu_change := (-10)%float;
          t_stat := t; sig_marker := "***" |}.
Proof. eexists. vm_compute. reflexivity. Qed.

(** ** The loop over the names *)

Lemma contains_lookup {V} (d : gmap string V) k :
  contains d k = match d !! k with Some _ => true | None => false end.
Proof.
  unfold contains. destruct (d !! k).
  - apply bool_decide_eq_true. eauto.
  - apply bool_decide_eq_false. intros [? ?]. discriminate.
Qed.

Lemma prog_bind_Ok {A B} (k : A -> prog B) out a :
  mbind k ((out, Ok a) : prog A) = (out ++ (k a).1, (k a).2).
Proof. reflexivity. Qed.

Lemma prog_bind_Raise {A B} (k : A -> prog B) out e :
  mbind k ((out, Raise e) : prog A) = (out, Raise e).
Proof. reflexivity. Qed.

(** One iteration, by the tests that it makes. *)
Lemma compare_name_cases (b o : result_set) nm acc :
  compare_name b o nm acc =
    match o !! nm with
    | None => ([], Ok acc)
    | Some optimized =>
        match b !! nm with
        | None => ([], Raise (KeyError nm))
        | Some baseline =>
            if contains baseline "mean_cpu" && contains optimized "mean_cpu"
            then
              match compare_bundles baseline optimized with
              | Ok c =>
                  ([Print (TableRow nm (time_change c) (cpu_change c)
                                    (sig_marker c) (t_stat c))],
                   Ok (if is_significant_improvement c
                       then acc ++ [(nm, cpu_change c, sig_marker c)]
                       else acc))
              | Raise e => ([], Raise e)
              end
            else ([], Ok acc)
        end
    end.
Proof.
  unfold compare_name. rewrite contains_lookup. unfold getitem, lift.
  destruct (o !! nm) as [optimized|]; [|reflexivity]. cbn [negb].
  destruct (b !! nm) as [baseline|]; [|reflexivity].
  rewrite !prog_bind_Ok. cbn [fst snd app].
  destruct (contains baseline "mean_cpu"), (contains optimized "mean_cpu");
    try reflexivity.
  cbn [negb orb andb].
  destruct (compare_bundles baseline optimized) as [c|e]; [|reflexivity].
  rewrite prog_bind_Ok. cbn [fst snd app].
  unfold print. rewrite prog_bind_Ok. cbn [fst snd app].
  destruct (is_significant_improvement c); reflexivity.
Qed.

Lemma compare_names_cons (b o : result_set) nm names acc :
  compare_names b o (nm :: names) acc =
    mbind (fun acc1 => compare_names b o names acc1)
          (compare_name b o nm acc).
Proof. reflexivity. Qed.

Lemma improvement_of_row nm (c : comparison) :
  improvement_of (Print (TableRow nm (time_change c) (cpu_change c)
                                  (sig_marker c) (t_stat c)))
  = if is_significant_improvement c
    then Some (nm, cpu_change c, sig_marker c) else None.
Proof. reflexivity. Qed.

Lemma row_names_cons e out :
  row_names (e :: out) =
    match row_name e with
    | Some nm => nm :: row_names out
    | None => row_names out
    end.
Proof. reflexivity. Qed.

Lemma improvements_of_cons e out :
  improvements_of (e :: out) =
    match improvement_of e with
    | Some i => i :: improvements_of out
    | None => improvements_of out
    end.
Proof. reflexivity. Qed.

(** What the loop prints and returns: every event is a table row; the rows
    are, in order, of the first eligible names, and of all of them when the
    loop ends without an exception; and the list it then returns has grown
    by the improvements among the rows. *)
Lemma compare_names_run (b o : result_set) names acc :
  (exists rest,
     List.filter (eligible b o) names
       = row_names (compare_names b o names acc).1 ++ rest) /\
  Forall (fun e => is_Some (row_name e)) (compare_names b o names acc).1 /\
  (forall acc', (compare_names b o names acc).2 = Ok acc' ->
     row_names (compare_names b o names acc).1
       = List.filter (eligible b o) names /\
     acc' = acc ++ improvements_of (compare_names b o names acc).1).
Proof.
  revert acc. induction names as [|nm names IH]; intros acc.
  { cbn. split; [now exists []|]. split; [constructor|].
    intros acc' H. inversion H. now rewrite app_nil_r. }
  rewrite compare_names_cons, compare_name_cases.
  cbn [List.filter].
  assert (eligible b o nm =
          match b !! nm, o !! nm with
          | Some baseline, Some optimized =>
              contains baseline "mean_cpu" && contains optimized "mean_cpu"
          | _, _ => false
          end) as Hel by reflexivity.
  destruct (o !! nm) as [optimized|].
  2:{ rewrite prog_bind_Ok. cbn [fst snd app].
      replace (eligible b o nm) with false by (now destruct (b !! nm)).
      apply IH. }
  destruct (b !! nm) as [baseline|].
  2:{ rewrite prog_bind_Raise, Hel. cbn [fst snd].
      split; [eexists; reflexivity|]. split; [constructor|]. discriminate. }
  rewrite Hel.
  destruct (contains baseline "mean_cpu" && contains optimized "mean_cpu").
  2:{ rewrite prog_bind_Ok. cbn [fst snd app]. apply IH. }
  destruct (compare_bundles baseline optimized) as [c|e].
  2:{ rewrite prog_bind_Raise. cbn [fst snd].
      split; [eexists; reflexivity|]. split; [constructor|]. discriminate. }
  rewrite prog_bind_Ok. cbn [fst snd].
  set (acc1 := if is_significant_improvement c
               then acc ++ [(nm, cpu_change c, sig_marker c)] else acc).
  destruct (IH acc1) as ([rest Hrest] & Hrows & Hok).
  cbn [app]. fold acc1. rewrite row_names_cons. cbn [row_name].
  split; [|split].
  - exists rest. cbn [app]. now rewrite Hrest.
  - constructor; [cbn; eauto | exact Hrows].
  - intros acc' H. destruct (Hok acc' H) as [Hnames ->].
    split; [now rewrite Hnames|].
    rewrite improvements_of_cons, improvement_of_row. subst acc1.
    destruct (is_significant_improvement c); [|reflexivity].
    now rewrite <- app_assoc.
Qed.

(** Where the loop stops: every row is of a name whose comparison
    returned, and a loop that raises an exception over keys of the baseline
    stops at the first eligible name whose comparison raises it. *)
Lemma compare_names_stop (b o : result_set) names acc :
  (forall nm, nm ∈ names -> is_Some (b !! nm)) ->
  (forall nm, nm ∈ row_names (compare_names b o names acc).1 ->
     exists baseline optimized c,
       b !! nm = Some baseline /\ o !! nm = Some optimized /\
       compare_bundles baseline optimized = Ok c) /\
  (forall e, (compare_names b o names acc).2 = Raise e ->
     exists nm after baseline optimized,
       List.filter (eligible b o) names
         = row_names (compare_names b o names acc).1 ++ nm :: after /\
       b !! nm = Some baseline /\ o !! nm = Some optimized /\
       compare_bundles baseline optimized = Raise e).
Proof.
  revert acc. induction names as [|nm names IH]; intros acc Hkeys.
  { cbn. split; [|discriminate]. intros nm Hnm. now apply elem_of_nil in Hnm. }
  assert (forall nm', nm' ∈ names -> is_Some (b !! nm')) as Hkeys'
    by (intros; apply Hkeys; now right).
  destruct (Hkeys nm ltac:(now left)) as [baseline Hb].
  rewrite compare_names_cons, compare_name_cases.
  cbn [List.filter].
  assert (eligible b o nm =
          match b !! nm, o !! nm with
          | Some baseline, Some optimized =>
              contains baseline "mean_cpu" && contains optimized "mean_cpu"
          | _, _ => false
          end) as Hel by reflexivity.
  rewrite Hb in Hel |- *.
  destruct (o !! nm) as [optimized|] eqn:Ho.
  2:{ rewrite prog_bind_Ok, Hel. cbn [fst snd app]. now apply IH. }
  rewrite Hel.
  destruct (contains baseline "mean_cpu" && contains optimized "mean_cpu").
  2:{ rewrite prog_bind_Ok. cbn [fst snd app]. now apply IH. }
  destruct (compare_bundles baseline optimized) as [c|e] eqn:Hc.
  2:{ rewrite prog_bind_Raise. cbn [fst snd]. split.
      - intros nm' Hnm'. now apply elem_of_nil in Hnm'.
      - intros e' He'. inversion He'; subst e'.
        exists nm, (List.filter (eligible b o) names), baseline, optimized.
        now rewrite Hc. }
  rewrite prog_bind_Ok. cbn [fst snd].
  set (acc1 := if is_significant_improvement c
               then acc ++ [(nm, cpu_change c, sig_marker c)] else acc).
  destruct (IH acc1 Hkeys') as [Hrows Hstop].
  cbn [app]. rewrite row_names_cons. cbn [row_name].
  split.
  - intros nm' Hnm'. apply elem_of_cons in Hnm' as [->|Hnm'].
    + exists baseline, optimized, c. now rewrite Hc.
    + now apply Hrows.
  - intros e He. destruct (Hstop e He) as (nm' & after & bl & op & Hf & H).
    exists nm', after, bl, op. cbn [app]. now rewrite Hf.
Qed.

(** ** The names in order *)

Lemma sorted_keys_sorted {V} (d : gmap string V) :
  Sorted String.le (sorted_keys d).
Proof. apply (Sorted_merge_sort String.le). Qed.

Lemma sorted_keys_perm {V} (d : gmap string V) :
  sorted_keys d ≡ₚ elements (dom d).
Proof. apply (merge_sort_Permutation String.le). Qed.

Lemma sorted_keys_NoDup {V} (d : gmap string V) : NoDup (sorted_keys d).
Proof. rewrite sorted_keys_perm. apply NoDup_elements. Qed.

Lemma elem_of_sorted_keys {V} (d : gmap string V) nm :
  nm ∈ sorted_keys d <-> is_Some (d !! nm).
Proof. now rewrite sorted_keys_perm, elem_of_elements, elem_of_dom. Qed.

(** ** The report around the loop *)

Lemma print_improvements_lines (l : list improvement) :
  print_improvements l
    = (map (fun i => Print (ImprovementLine i.1.1 i.1.2 i.2)) l, Ok tt).
Proof.
  induction l as [|[[nm change] sig] l IH]; [reflexivity|].
  cbn [print_improvements]. unfold print. rewrite prog_bind_Ok, IH.
  reflexivity.
Qed.

Lemma print_summary_lines (l : list improvement) :
  print_summary l = (map Print (summary_lines l), Ok tt).
Proof.
  destruct l as [|i l]; [reflexivity|].
  unfold print_summary, summary_lines, print.
  rewrite !prog_bind_Ok, print_improvements_lines. cbn [fst snd].
  rewrite !map_app, map_map. reflexivity.
Qed.

(** The report: the heading and the rows of the loop, and after a loop
    that ends without an exception the legend and the summary. *)
Lemma report_run (b o : result_set) :
  report b o =
    match (compare_names b o (sorted_keys b) []).2 with
    | Ok acc =>
        (heading ++ (compare_names b o (sorted_keys b) []).1 ++
         print_legend.1 ++ map Print (summary_lines acc), Ok tt)
    | Raise e =>
        (heading ++ (compare_names b o (sorted_keys b) []).1, Raise e)
    end.
Proof.
  unfold report, print. rewrite !prog_bind_Ok. cbn [fst snd].
  destruct (compare_names b o (sorted_keys b) []) as [out [acc|e]].
  - rewrite prog_bind_Ok. cbn [fst snd].
    change print_legend with (print_legend.1, Ok tt).
    rewrite prog_bind_Ok, print_summary_lines. reflexivity.
  - rewrite prog_bind_Raise. reflexivity.
Qed.

(** Events that are not table rows add neither a row nor an improvement. *)
Lemma improvement_row e : row_name e = None -> improvement_of e = None.
Proof. destruct e as [f|[]]; simpl; congruence. Qed.

Lemma row_names_none out :
  Forall (fun e => row_name e = None) out -> row_names out = [].
Proof.
  induction 1 as [|e out He _ IH]; [reflexivity|].
  now rewrite row_names_cons, He.
Qed.

Lemma improvements_of_none out :
  Forall (fun e => row_name e = None) out -> improvements_of out = [].
Proof.
  induction 1 as [|e out He _ IH]; [reflexivity|].
  now rewrite improvements_of_cons, (improvement_row _ He).
Qed.

Lemma summary_no_rows acc :
  Forall (fun e => row_name e = None) (map Print (summary_lines acc)).
Proof.
  destruct acc as [|i acc]; [repeat constructor|].
  unfold summary_lines. rewrite !map_app. repeat apply Forall_app_2.
  - repeat constructor.
  - apply Forall_map, Forall_map, Forall_forall. reflexivity.
  - repeat constructor.
Qed.

Lemma legend_no_rows : Forall (fun e => row_name e = None) print_legend.1.
Proof. repeat constructor. Qed.

Lemma heading_no_rows : Forall (fun e => row_name e = None) heading.
Proof. repeat constructor. Qed.

Lemma row_names_app out1 out2 :
  row_names (out1 ++ out2) = row_names out1 ++ row_names out2.
Proof. apply omap_app. Qed.

Lemma improvements_of_app out1 out2 :
  improvements_of (out1 ++ out2) = improvements_of out1 ++ improvements_of out2.
Proof. apply omap_app. Qed.

Lemma row_names_report (b o : result_set) :
  row_names (report b o).1
    = row_names (compare_names b o (sorted_keys b) []).1.
Proof.
  rewrite report_run.
  destruct (compare_names b o (sorted_keys b) []).2; cbn [fst];
    rewrite !row_names_app, ?(row_names_none _ heading_no_rows),
      ?(row_names_none _ legend_no_rows),
      ?(row_names_none _ (summary_no_rows _)), ?app_nil_r; reflexivity.
Qed.

Lemma improvements_of_report (b o : result_set) :
  improvements_of (report b o).1
    = improvements_of (compare_names b o (sorted_keys b) []).1.
Proof.
  rewrite report_run.
  destruct (compare_names b o (sorted_keys b) []).2; cbn [fst];
    rewrite !improvements_of_app, ?(improvements_of_none _ heading_no_rows),
      ?(improvements_of_none _ legend_no_rows),
      ?(improvements_of_none _ (summary_no_rows _)), ?app_nil_r; reflexivity.
Qed.

Lemma eligible_true (b o : result_set) nm :
  eligible b o nm = true <->
  exists baseline optimized,
    b !! nm = Some baseline /\ o !! nm = Some optimized /\
    is_Some (baseline !! "mean_cpu") /\ is_Some (optimized !! "mean_cpu").
Proof.
  unfold eligible, contains. split.
  - destruct (b !! nm) as [baseline|]; [|discriminate].
    destruct (o !! nm) as [optimized|]; [|discriminate].
    intros [H1 H2]%andb_true_iff.
    apply bool_decide_eq_true in H1, H2. eauto 8.
  - intros (baseline & optimized & -> & -> & H1 & H2).
    apply andb_true_iff. split; now apply bool_decide_eq_true.
Qed.

(** ** Which names get a row *)

(** The name A is in both result sets with a mean_cpu in both bundles, but
    the division by its baseline mean raises before a row is printed. *)
Lemma row_counterexample :
  let results := extract_records zero_mean_records ∅ in
  eligible results results "A" = true /\
  report results results = (heading, Raise ZeroDivisionError) /\
  row_names (report results results).1 = [].
Proof. vm_compute. repeat split. Qed.

(** C6, amended: the Reporter goes through exactly the names of the
    baseline result set, in ascending lexicographic order; every row it
    prints is of a name that is also in the optimized result set with a
    mean_cpu in both bundles, so that every other name is left out, and of a
    name whose comparison returned; when the run ends without an exception
    the rows are, in that order, of all such names; and when the run raises
    an exception the rows are, in that order, of the names before the first
    such name whose comparison raises, which is the exception of the run. *)
Theorem report_rows (b o : result_set) :
  let names := sorted_keys b in
  let rows := row_names (report b o).1 in
  (Sorted String.le names /\ NoDup names /\
   forall nm, nm ∈ names <-> is_Some (b !! nm)) /\
  (forall nm, eligible b o nm = true <->
     exists baseline optimized,
       b !! nm = Some baseline /\ o !! nm = Some optimized /\
       is_Some (baseline !! "mean_cpu") /\ is_Some (optimized !! "mean_cpu")) /\
  (exists rest, List.filter (eligible b o) names = rows ++ rest) /\
  (forall nm, nm ∈ rows ->
     nm ∈ names /\ eligible b o nm = true /\
     exists baseline optimized c,
       b !! nm = Some baseline /\ o !! nm = Some optimized /\
       compare_bundles baseline optimized = Ok c) /\
  (forall u, (report b o).2 = Ok u ->
     rows = List.filter (eligible b o) names) /\
  (forall e, (report b o).2 = Raise e ->
     exists nm after baseline optimized,
       List.filter (eligible b o) names = rows ++ nm :: after /\
       b !! nm = Some baseline /\ o !! nm = Some optimized /\
       compare_bundles baseline optimized = Raise e).
Proof.
  intros names rows.
  destruct (compare_names_run b o names []) as ([rest Hrest] & _ & Hok).
  destruct (compare_names_stop b o names []) as [Hreturned Hstop].
  { intros nm. apply elem_of_sorted_keys. }
  fold names in Hrest, Hok.
  assert (rows = row_names (compare_names b o names []).1) as Hrows
    by apply row_names_report.
  split.
  { split; [apply sorted_keys_sorted|].
    split; [apply sorted_keys_NoDup | apply elem_of_sorted_keys]. }
  split; [apply eligible_true|].
  split; [exists rest; now rewrite Hrows|].
  split; [|split].
  - intros nm Hnm.
    assert (nm ∈ List.filter (eligible b o) names) as Hin.
    { rewrite Hrest, <- Hrows. apply elem_of_app. now left. }
    apply list_elem_of_In, filter_In in Hin as [Hin Hel].
    split; [now apply list_elem_of_In|]. split; [exact Hel|].
    apply Hreturned. now rewrite <- Hrows.
  - intros u Hu. rewrite Hrows. rewrite report_run in Hu. fold names in Hu.
    destruct (compare_names b o names []).2 as [acc|e] eqn:Hacc;
      [|discriminate].
    now destruct (Hok acc eq_refl).
  - intros e He. rewrite Hrows. apply Hstop.
    rewrite report_run in He. fold names in He.
    destruct (compare_names b o names []).2 as [acc|e']; [discriminate|].
    inversion He. reflexivity.
Qed.

(** ** The summary of improvements *)




(** ** No lookup of a mean fails *)

Lemma compare_bundles_no_KeyError (baseline optimized : bundle) k :
  paired baseline -> paired optimized ->
  is_Some (baseline !! "mean_cpu") -> is_Some (optimized !! "mean_cpu") ->
  compare_bundles baseline optimized <> Raise (KeyError k).
Proof.
  intros Pb Po [b_cpu Hbc] [o_cpu Hoc].
  assert ("mean" ∈ kinds) as Hmean by (unfold kinds; set_solver).
  destruct (proj2 (Pb "mean" Hmean) (ex_intro _ b_cpu Hbc)) as [b_time Hbt].
  destruct (proj2 (Po "mean" Hmean) (ex_intro _ o_cpu Hoc)) as [o_time Hot].
  rewrite (compare_bundles_means _ _ _ _ _ _ Hbt Hot Hbc Hoc).
  destruct (PyFloat.is_zero b_time); [discriminate|].
  destruct (PyFloat.is_zero b_cpu); [discriminate|].
  destruct (compute_significance _ _ _ _) as [ts|e] eqn:He; [discriminate|].
  apply Significance.raises_only_overflow in He. subst e. discriminate.
Qed.

Lemma compare_names_no_KeyError (b o : result_set) names acc k :
  all_paired b -> all_paired o ->
  (forall nm, nm ∈ names -> is_Some (b !! nm)) ->
  (compare_names b o names acc).2 <> Raise (KeyError k).
Proof.
  intros Pb Po. revert acc.
  induction names as [|nm names IH]; intros acc Hkeys; [discriminate|].
  assert (forall nm', nm' ∈ names -> is_Some (b !! nm')) as Hkeys'
    by (intros; apply Hkeys; now right).
  rewrite compare_names_cons, compare_name_cases.
  destruct (o !! nm) as [optimized|] eqn:Ho.
  2:{ rewrite prog_bind_Ok. now apply IH. }
  destruct (b !! nm) as [baseline|] eqn:Hb.
  2:{ destruct (Hkeys nm ltac:(left)) as [? H]. congruence. }
  destruct (contains baseline "mean_cpu") eqn:Cb; cbn [andb];
    [|rewrite prog_bind_Ok; now apply IH].
  destruct (contains optimized "mean_cpu") eqn:Co;
    [|rewrite prog_bind_Ok; now apply IH].
  apply bool_decide_eq_true in Cb, Co.
  pose proof (compare_bundles_no_KeyError baseline optimized k
                (Pb _ _ Hb) (Po _ _ Ho) Cb Co) as Hne.
  destruct (compare_bundles baseline optimized) as [c|e].
  - rewrite prog_bind_Ok. now apply IH.
  - rewrite prog_bind_Raise. cbn [snd]. congruence.
Qed.

(** C10: in every bundle that [extract_results] builds, each kind of
    statistic (mean, median, stddev, cv) has its time field exactly when it
    has its cpu field; and so the Reporter, run on two result sets built by
    [extract_results], never fails with a KeyError: the mean_cpu that it
    tests comes with the mean_time that it reads. *)
Theorem fields_in_pairs (records optimized_records : list bench) :
  (exists results,
     extract_results {| benchmarks := Some records |} = Ok results /\
     forall nm bd kind,
       results !! nm = Some bd ->
       kind ∈ ["mean"; "median"; "stddev"; "cv"] ->
       is_Some (bd !! (kind +:+ "_time")) <-> is_Some (bd !! (kind +:+ "_cpu"))) /\
  (forall k,
     (report (extract_records records ∅)
             (extract_records optimized_records ∅)).2
     <> Raise (KeyError k)).
Proof.
  pose proof (Aggregator.all_paired_extract_records records ∅
                Aggregator.all_paired_empty) as Pb.
  pose proof (Aggregator.all_paired_extract_records optimized_records ∅
                Aggregator.all_paired_empty) as Po.
  split.
  - eexists. split; [reflexivity|]. intros nm bd kind Hnm Hkind.
    exact (Pb nm bd Hnm kind Hkind).
  - intros k. rewrite report_run.
    pose proof (compare_names_no_KeyError _ _
                  (sorted_keys (extract_records records ∅)) [] k Pb Po
                  (fun nm H => proj1 (elem_of_sorted_keys _ nm) H)) as Hne.
    destruct (compare_names _ _ _ _).2; [discriminate|]. cbn [snd]. congruence.
Qed.

End Reporter.

(** * The entry point *)

Module EntryPoint.

(** C9: run with any number of arguments other than two (the list
    [sys.argv] then has a length other than three), the script prints the
    usage line and exits with status 1, and opens no file; run with two
    arguments it is [compare_benchmarks] on them, which opens the baseline
    file first, whatever the files hold. *)
Theorem usage_or_loading (fs : filesystem) (argv : list string) :
  (length argv <> 3 ->
   main fs argv =
     ([Print (Text "Usage: python compare_benchmarks.py baseline.json optimized.json")],
      Raise (SystemExit 1))) /\
  (forall script baseline_file optimized_file,
     argv = [script; baseline_file; optimized_file] ->
     main fs argv = compare_benchmarks fs baseline_file optimized_file /\
     exists rest, (main fs argv).1 = Open baseline_file :: rest).
Proof.
  split.
  - intros Hlen. unfold main.
    destruct (Nat.eqb_spec (length argv) 3) as [|_]; [contradiction|].
    reflexivity.
  - intros script baseline_file optimized_file ->.
    assert (main fs [script; baseline_file; optimized_file]
            = compare_benchmarks fs baseline_file optimized_file) as Hmain.
    { unfold main. cbn [length Nat.eqb negb]. unfold lift, argv_item.
      cbn [lookup list_lookup]. rewrite !Reporter.prog_bind_Ok.
      cbn [app fst snd]. now destruct (compare_benchmarks _ _ _). }
    split; [exact Hmain|]. rewrite Hmain.
    unfold compare_benchmarks, load_benchmark.
    destruct (fs baseline_file) as [d|e].
    + rewrite Reporter.prog_bind_Ok. cbn [fst app]. eauto.
    + rewrite Reporter.prog_bind_Raise. cbn [fst]. eauto.
Qed.

(** A missing baseline file is still asked for, and nothing else is. *)
Example missing_files :
  main (fun f => Raise (FileNotFoundError f)) ["compare_benchmarks.py"; "a.json"; "b.json"]
  = ([Open "a.json"], Raise (FileNotFoundError "a.json")).
Proof. reflexivity. Qed.

(** Two files with the mean and the standard deviation of one benchmark
    Foo: 200 with deviation 10 before, 150 with deviation 10 after. *)
Example end_to_end :
  let file (mean : float) :=
    {| benchmarks := Some
         [ {| name := "Foo_mean"; real_time := Some mean; cpu_time := Some mean |};
           {| name := "Foo_stddev"; real_time := Some 10%float;
              cpu_time := Some 10%float |} ] |} in
  let fs (f : string) :=
    if String.eqb f "baseline.json" then Ok (file 200%float)
    else if String.eqb f "optimized.json" then Ok (file 150%float)
    else Raise (FileNotFoundError f) in
  main fs ["compare_benchmarks.py"; "baseline.json"; "optimized.json"] =
    ([Open "baseline.json"; Open "optimized.json"] ++ heading ++
     [Print (TableRow "Foo" (-25)%float (-25)%float "***"
                      (PrimFloat.div 50%float (PrimFloat.sqrt 10%float)))] ++
     print_legend.1 ++
     map Print
       [Text rule; Text "SIGNIFICANT IMPROVEMENTS (CPU time):"; Text rule;
        ImprovementLine "Foo" (-25)%float "***"; Text "";
        AverageLine (-25)%float],
     Ok tt).
Proof. vm_compute. reflexivity. Qed.

Example too_many_arguments :
  main (fun f => Raise (FileNotFoundError f))
       ["compare_benchmarks.py"; "a.json"; "b.json"; "c.json"]
  = ([Print (Text usage)], Raise (SystemExit 1)).
Proof. reflexivity. Qed.

End EntryPoint.


(** * More on the Aggregator *)

Module Extraction.

Import Aggregator.

(** ** A record as one update of the dictionary *)

Lemma extract_record_fill (results : result_set) (b : bench) :
  extract_record results b !! logical_name b
    = Some (fill b (default ∅ (results !! logical_name b))).
Proof.
  pose proof (extract_record_at results b) as H. cbv zeta in H.
  fold (logical_name b) in H. unfold fill.
  destruct (first_rule (name b)) as [[suffix [f_time f_cpu]]|];
    now destruct H as [_ ->].
Qed.

Lemma extract_record_insert (results : result_set) (b : bench) :
  extract_record results b
    = <[logical_name b := fill b (default ∅ (results !! logical_name b))]>
        results.
Proof.
  apply map_eq. intros k.
  destruct (decide (k = logical_name b)) as [->|Hne].
  - now rewrite lookup_insert_eq, extract_record_fill.
  - rewrite lookup_insert_ne by congruence.
    now apply extract_record_elsewhere.
Qed.

(** ** Names and rules *)

(** No name ends with two different suffixes of the list. *)
Lemma one_suffix s a b :
  a ∈ suffixes -> b ∈ suffixes ->
  PyStr.endswith s a = true -> PyStr.endswith s b = true -> a = b.
Proof.
  intros Ha Hb Hsa Hsb.
  assert (String.length a <= String.length b -> PyStr.endswith b a = true)
    as H1 by eauto using endswith_both.
  assert (String.length b <= String.length a -> PyStr.endswith a b = true)
    as H2 by eauto using endswith_both.
  unfold suffixes in Ha, Hb.
  repeat (apply elem_of_cons in Ha as [->|Ha]);
    [..|now apply elem_of_nil in Ha];
    repeat (apply elem_of_cons in Hb as [->|Hb]);
    try (now apply elem_of_nil in Hb); try reflexivity;
    simpl in H1, H2;
    (specialize (H1 ltac:(lia)); discriminate H1) ||
    (specialize (H2 ltac:(lia)); discriminate H2).
Qed.

(** The rule of a name is the one of the suffix that ends it. *)
Lemma first_rule_Some nm suffix f_time f_cpu :
  first_rule nm = Some (suffix, (f_time, f_cpu)) <->
  (suffix, (f_time, f_cpu)) ∈ rules /\ PyStr.endswith nm suffix = true.
Proof.
  split.
  - intros H. apply find_some in H as [Hin Hend].
    split; [now apply list_elem_of_In | exact Hend].
  - intros [Hin Hend].
    assert (suffix ∈ suffixes) as Hsuf.
    { unfold rules in Hin. unfold suffixes.
      repeat (apply elem_of_cons in Hin as [Hin|Hin];
              [inversion Hin; subst; set_solver|]).
      now apply elem_of_nil in Hin. }
    unfold first_rule, rules. cbn [List.find fst].
    destruct (PyStr.endswith nm "_mean") eqn:E1.
    { pose proof (one_suffix nm suffix "_mean" Hsuf ltac:(set_solver) Hend E1) as ->.
      unfold rules in Hin.
      repeat (apply elem_of_cons in Hin as [Hin|Hin];
              [inversion Hin; subst; reflexivity|]).
      now apply elem_of_nil in Hin. }
    destruct (PyStr.endswith nm "_median") eqn:E2.
    { pose proof (one_suffix nm suffix "_median" Hsuf ltac:(set_solver) Hend E2) as ->.
      unfold rules in Hin.
      repeat (apply elem_of_cons in Hin as [Hin|Hin];
              [inversion Hin; subst; reflexivity|]).
      now apply elem_of_nil in Hin. }
    destruct (PyStr.endswith nm "_stddev") eqn:E3.
    { pose proof (one_suffix nm suffix "_stddev" Hsuf ltac:(set_solver) Hend E3) as ->.
      unfold rules in Hin.
      repeat (apply elem_of_cons in Hin as [Hin|Hin];
              [inversion Hin; subst; reflexivity|]).
      now apply elem_of_nil in Hin. }
    destruct (PyStr.endswith nm "_cv") eqn:E4.
    { pose proof (one_suffix nm suffix "_cv" Hsuf ltac:(set_solver) Hend E4) as ->.
      unfold rules in Hin.
      repeat (apply elem_of_cons in Hin as [Hin|Hin];
              [inversion Hin; subst; reflexivity|]).
      now apply elem_of_nil in Hin. }
    unfold suffixes in Hsuf.
    repeat (apply elem_of_cons in Hsuf as [->|Hsuf]; [congruence|]).
    now apply elem_of_nil in Hsuf.
Qed.

Lemma app_inv_tail p q s : p +:+ s = q +:+ s -> p = q.
Proof.
  revert q. induction p as [|a p IH]; intros [|c q] H.
  - reflexivity.
  - apply (f_equal String.length) in H. rewrite app_nil_l, app_cons in H.
    simpl in H. rewrite length_app in H. lia.
  - apply (f_equal String.length) in H. rewrite app_nil_l, app_cons in H.
    simpl in H. rewrite length_app in H. lia.
  - rewrite !app_cons in H. inversion H; subst. f_equal. now apply IH.
Qed.

Lemma name_of_rule nm suffix f_time f_cpu :
  first_rule nm = Some (suffix, (f_time, f_cpu)) ->
  nm = strip_suffix suffixes nm +:+ suffix.
Proof.
  intros H.
  pose proof (extract_record_at ∅ {| name := nm; real_time := None;
                                     cpu_time := None |}) as Hat.
  cbv zeta in Hat. cbn [name] in Hat. rewrite H in Hat. now destruct Hat.
Qed.

Lemma suffix_of_rule suffix f_time f_cpu :
  (suffix, (f_time, f_cpu)) ∈ rules -> suffix ∈ suffixes.
Proof.
  unfold rules, suffixes. intros Hin.
  repeat (apply elem_of_cons in Hin as [Hin|Hin];
          [inversion Hin; subst; set_solver|]).
  now apply elem_of_nil in Hin.
Qed.

Lemma first_rule_app X suffix f_time f_cpu :
  (suffix, (f_time, f_cpu)) ∈ rules ->
  first_rule (X +:+ suffix) = Some (suffix, (f_time, f_cpu)).
Proof. intros Hin. apply first_rule_Some. split; [exact Hin | apply endswith_app]. Qed.

(** The logical name of [X] followed by a suffix of the list is [X]. *)
Lemma strip_with_suffix X suffix f_time f_cpu :
  (suffix, (f_time, f_cpu)) ∈ rules ->
  strip_suffix suffixes (X +:+ suffix) = X.
Proof.
  intros Hin. pose proof (name_of_rule _ _ _ _ (first_rule_app X _ _ _ Hin)) as H.
  symmetry. eapply app_inv_tail, H.
Qed.

Lemma rule_of_listed suffix :
  suffix ∈ ["_mean"; "_median"; "_stddev"; "_cv"] ->
  exists f_time f_cpu, (suffix, (f_time, f_cpu)) ∈ rules.
Proof.
  intros Hin. unfold rules.
  repeat (apply elem_of_cons in Hin as [->|Hin];
          [do 2 eexists; repeat (first [now left | right]) |]).
  now apply elem_of_nil in Hin.
Qed.

(** A name without a rule is its own logical name. *)
Lemma strip_without_rule nm :
  first_rule nm = None -> strip_suffix suffixes nm = nm.
Proof.
  intros H.
  pose proof (extract_record_at ∅ {| name := nm; real_time := None;
                                     cpu_time := None |}) as Hat.
  cbv zeta in Hat. cbn [name] in Hat. rewrite H in Hat. now destruct Hat.
Qed.

(** The inner loop of the aggregator computes the logical name. *)
Lemma strip_suffix_logical nm X :
  strip_suffix suffixes nm = X <-> logical_name_of nm X.
Proof.
  split.
  - intros <-. destruct (first_rule nm) as [[suffix [f_time f_cpu]]|] eqn:Hrule.
    + left. exists suffix. split; [|now apply (name_of_rule _ _ _ _ Hrule)].
      apply first_rule_Some in Hrule as [Hin _].
      exact (suffix_of_rule _ _ _ Hin).
    + right. split; [symmetry; now apply strip_without_rule|].
      intros suffix Hin [p ->].
      destruct (rule_of_listed _ Hin) as (f_time & f_cpu & Hr).
      rewrite (first_rule_app _ _ _ _ Hr) in Hrule. discriminate.
  - intros [(suffix & Hin & ->)|[-> Hnone]].
    + destruct (rule_of_listed _ Hin) as (f_time & f_cpu & Hr).
      exact (strip_with_suffix _ _ _ _ Hr).
    + apply strip_without_rule.
      destruct (first_rule X) as [[suffix [f_time f_cpu]]|] eqn:Hrule;
        [|reflexivity].
      exfalso. apply (Hnone suffix).
      * apply first_rule_Some in Hrule as [Hin _].
        exact (suffix_of_rule _ _ _ Hin).
      * eexists. exact (name_of_rule _ _ _ _ Hrule).
Qed.

(** C5: for every sequence of records, the result set that
    [extract_results] returns has one bundle for each distinct logical name
    among the records and no other, so as many bundles as there are distinct
    logical names: a record whose name ends with none of the suffixes counts
    under its full name, and records with one logical name count once. *)
Theorem bundle_count (records : list bench) :
  exists (results : result_set) (names : list string),
    extract_results {| benchmarks := Some records |} = Ok results /\
    NoDup names /\
    (forall X, X ∈ names <->
       exists b, b ∈ records /\ logical_name_of (name b) X) /\
    (forall X, is_Some (results !! X) <-> X ∈ names) /\
    size results = length names.
Proof.
  exists (extract_records records ∅), (elements (dom (extract_records records ∅))).
  split; [reflexivity|].
  split; [apply NoDup_elements|].
  split; [|split].
  - intros X.
    rewrite elem_of_elements, dom_extract_records, dom_empty_L,
      (right_id_L ∅ (∪)), elem_of_list_to_set, list_elem_of_fmap.
    split.
    + intros (b & -> & Hb). exists b. split; [exact Hb|].
      now apply strip_suffix_logical.
    + intros (b & Hb & HX). exists b. split; [|exact Hb].
      symmetry. now apply strip_suffix_logical.
  - intros X. now rewrite elem_of_elements, elem_of_dom.
  - now rewrite <- size_dom.
Qed.

(** Two rules that share a field are the same rule. *)
Lemma rule_of_field s1 t1 c1 s2 t2 c2 f :
  (s1, (t1, c1)) ∈ rules -> (s2, (t2, c2)) ∈ rules ->
  f = t1 \/ f = c1 -> f = t2 \/ f = c2 ->
  s1 = s2.
Proof.
  unfold rules. intros H1 H2 F1 F2.
  repeat (apply elem_of_cons in H1 as [H1|H1];
          [inversion H1; subst; clear H1|]);
    try (now apply elem_of_nil in H1);
    repeat (apply elem_of_cons in H2 as [H2|H2];
            [inversion H2; subst; clear H2|]);
    try (now apply elem_of_nil in H2); try reflexivity;
    destruct F1 as [->| ->]; destruct F2 as [F2|F2]; discriminate F2.
Qed.

(** A record fills a field of its bundle exactly when the field is of
    its rule; every other field stays as it is. *)
Lemma fill_lookup (b : bench) (bd : bundle) f :
  fill b bd !! f =
    match first_rule (name b) with
    | Some (_, (f_time, f_cpu)) =>
        if decide (f_cpu = f) then Some (get_or_zero (cpu_time b))
        else if decide (f_time = f) then Some (get_or_zero (real_time b))
        else bd !! f
    | None => bd !! f
    end.
Proof.
  unfold fill. destruct (first_rule (name b)) as [[suffix [f_time f_cpu]]|];
    [|reflexivity].
  now rewrite !lookup_insert.
Qed.

Lemma rule_of_suffix suffix t1 c1 t2 c2 :
  (suffix, (t1, c1)) ∈ rules -> (suffix, (t2, c2)) ∈ rules ->
  t1 = t2 /\ c1 = c2.
Proof.
  intros H1 H2.
  pose proof (first_rule_app "" _ _ _ H1) as E1.
  pose proof (first_rule_app "" _ _ _ H2) as E2.
  rewrite E1 in E2. now inversion E2.
Qed.

Lemma rule_fields_differ suffix f_time f_cpu :
  (suffix, (f_time, f_cpu)) ∈ rules -> f_time <> f_cpu.
Proof.
  unfold rules. intros Hin.
  repeat (apply elem_of_cons in Hin as [Hin|Hin];
          [inversion Hin; subst; discriminate|]).
  now apply elem_of_nil in Hin.
Qed.

Lemma default_empty_lookup (results : result_set) nm f :
  default ∅ (results !! nm) !! f = field_of results nm f.
Proof.
  unfold field_of. destruct (results !! nm); [reflexivity|]. apply lookup_empty.
Qed.

(** ** Which fields a bundle has *)

(** After one record a field of a rule is there when it was there before,
    or the record has the name of the bundle with the suffix of the rule. *)
Lemma field_after_record (results : result_set) (b : bench)
    X suffix f_time f_cpu f :
  (suffix, (f_time, f_cpu)) ∈ rules -> f = f_time \/ f = f_cpu ->
  is_Some (field_of (extract_record results b) X f) <->
  is_Some (field_of results X f) \/ name b = X +:+ suffix.
Proof.
  intros Hin Hf. unfold field_of at 1. rewrite extract_record_insert.
  destruct (decide (X = logical_name b)) as [->|Hne].
  2:{ rewrite lookup_insert_ne by congruence. fold (field_of results X f).
      split; [tauto|]. intros [H|H]; [exact H|]. exfalso. apply Hne.
      unfold logical_name. rewrite H. symmetry.
      eapply strip_with_suffix, Hin. }
  rewrite lookup_insert_eq. cbn [mbind option_bind].
  rewrite fill_lookup, default_empty_lookup.
  destruct (first_rule (name b)) as [[s' [t' c']]|] eqn:Hrule.
  2:{ split; [tauto|]. intros [H|H]; [exact H|]. exfalso.
      rewrite H, (first_rule_app _ _ _ _ Hin) in Hrule. discriminate. }
  pose proof (proj1 (first_rule_Some _ _ _ _) Hrule) as [Hin' _].
  pose proof (name_of_rule _ _ _ _ Hrule) as Hname.
  fold (logical_name b) in Hname.
  assert (name b = logical_name b +:+ suffix -> t' = f_time /\ c' = f_cpu)
    as Hsame.
  { intros H. rewrite Hname in H at 1. apply String.app_inj in H. subst s'.
    eapply rule_of_suffix; eassumption. }
  repeat case_decide.
  - split; [|eauto]. intros _. right.
    rewrite Hname at 1. f_equal.
    apply (rule_of_field s' t' c' suffix f_time f_cpu f); auto.
  - split; [|eauto]. intros _. right.
    rewrite Hname at 1. f_equal.
    apply (rule_of_field s' t' c' suffix f_time f_cpu f); auto.
  - split; [tauto|]. intros [Hold|Hnm]; [exact Hold|].
    destruct (Hsame Hnm) as [-> ->]. destruct Hf; congruence.
Qed.

Lemma field_after_records (records : list bench) (results : result_set)
    X suffix f_time f_cpu f :
  (suffix, (f_time, f_cpu)) ∈ rules -> f = f_time \/ f = f_cpu ->
  is_Some (field_of (extract_records records results) X f) <->
  is_Some (field_of results X f) \/
  exists b, b ∈ records /\ name b = X +:+ suffix.
Proof.
  intros Hin Hf. revert results.
  induction records as [|b records IH]; intros results.
  - cbn. split; [tauto|]. intros [H|(b & Hb & _)]; [exact H|].
    now apply elem_of_nil in Hb.
  - unfold extract_records in *. cbn [fold_left].
    rewrite IH, (field_after_record _ _ _ _ _ _ _ Hin Hf). split.
    + intros [[H|H]|(b' & Hb' & H)]; [tauto| |].
      * right. exists b. split; [left|exact H].
      * right. exists b'. split; [now right|exact H].
    + intros [H|(b' & Hb' & H)]; [tauto|].
      apply elem_of_cons in Hb' as [->|Hb']; [tauto|]. right. eauto.
Qed.

(** X1: a bundle of the result set has the time field of a kind of
    statistic, and likewise its cpu field, exactly when the input has a
    record whose name is the logical name followed by the suffix of that
    kind; a record without a suffix fills no field. *)
Theorem field_iff_record (records : list bench) X suffix f_time f_cpu :
  (suffix, (f_time, f_cpu)) ∈ rules ->
  (is_Some (field_of (extract_records records ∅) X f_time) <->
   exists b, b ∈ records /\ name b = X +:+ suffix) /\
  (is_Some (field_of (extract_records records ∅) X f_cpu) <->
   exists b, b ∈ records /\ name b = X +:+ suffix).
Proof.
  intros Hin.
  assert (forall f, ~ is_Some (field_of ∅ X f)) as Hempty.
  { intros f [v H]. unfold field_of in H. rewrite lookup_empty in H.
    discriminate. }
  split.
  - rewrite (field_after_records records ∅ X _ _ _ f_time Hin) by tauto.
    specialize (Hempty f_time). tauto.
  - rewrite (field_after_records records ∅ X _ _ _ f_cpu Hin) by tauto.
    specialize (Hempty f_cpu). tauto.
Qed.

Lemma field_iff_record_witness :
  (is_Some (field_of (extract_records zero_mean_records ∅) "A" "mean_time") <->
   exists b, b ∈ zero_mean_records /\ name b = "A" +:+ "_mean") /\
  (is_Some (field_of (extract_records zero_mean_records ∅) "A" "mean_cpu") <->
   exists b, b ∈ zero_mean_records /\ name b = "A" +:+ "_mean").
Proof.
  apply (field_iff_record zero_mean_records "A" "_mean" "mean_time" "mean_cpu").
  unfold rules. apply elem_of_cons. now left.
Defined.

(** ** The last record of a name decides *)

Lemma field_set_by_record (results : result_set) (b : bench)
    suffix f_time f_cpu :
  first_rule (name b) = Some (suffix, (f_time, f_cpu)) ->
  field_of (extract_record results b) (logical_name b) f_time
    = Some (get_or_zero (real_time b)) /\
  field_of (extract_record results b) (logical_name b) f_cpu
    = Some (get_or_zero (cpu_time b)).
Proof.
  intros Hrule. unfold field_of. rewrite extract_record_insert, lookup_insert_eq.
  cbn [mbind option_bind]. rewrite !fill_lookup, Hrule.
  pose proof (proj1 (first_rule_Some _ _ _ _) Hrule) as [Hin _].
  pose proof (rule_fields_differ _ _ _ Hin).
  repeat case_decide; try congruence. split; reflexivity.
Qed.

Lemma field_kept_by_other (results : result_set) (b b' : bench)
    suffix f_time f_cpu f :
  first_rule (name b) = Some (suffix, (f_time, f_cpu)) ->
  f = f_time \/ f = f_cpu ->
  name b' <> name b ->
  field_of (extract_record results b') (logical_name b) f
    = field_of results (logical_name b) f.
Proof.
  intros Hrule Hf Hne. unfold field_of at 1. rewrite extract_record_insert.
  destruct (decide (logical_name b = logical_name b')) as [HL|HL].
  2:{ now rewrite lookup_insert_ne by congruence. }
  rewrite HL, lookup_insert_eq. cbn [mbind option_bind].
  rewrite fill_lookup, default_empty_lookup, <- HL.
  destruct (first_rule (name b')) as [[s' [t' c']]|] eqn:Hrule'; [|reflexivity].
  pose proof (proj1 (first_rule_Some _ _ _ _) Hrule) as [Hin _].
  pose proof (proj1 (first_rule_Some _ _ _ _) Hrule') as [Hin' _].
  assert (s' = suffix -> False) as Hdiff.
  { intros ->. apply Hne.
    rewrite (name_of_rule _ _ _ _ Hrule), (name_of_rule _ _ _ _ Hrule').
    fold (logical_name b) (logical_name b'). now rewrite HL. }
  repeat case_decide; try reflexivity; exfalso; apply Hdiff;
    apply (rule_of_field s' t' c' suffix f_time f_cpu f); auto.
Qed.

Lemma field_kept_by_others (after : list bench) (results : result_set)
    (b : bench) suffix f_time f_cpu f :
  first_rule (name b) = Some (suffix, (f_time, f_cpu)) ->
  f = f_time \/ f = f_cpu ->
  (forall b', b' ∈ after -> name b' <> name b) ->
  field_of (extract_records after results) (logical_name b) f
    = field_of results (logical_name b) f.
Proof.
  intros Hrule Hf. revert results.
  induction after as [|b' after IH]; intros results Hafter; [reflexivity|].
  unfold extract_records in *. cbn [fold_left].
  rewrite IH by (intros; apply Hafter; now right).
  eapply field_kept_by_other; eauto. apply Hafter. now left.
Qed.

Lemma extract_records_app (l1 l2 : list bench) (results : result_set) :
  extract_records (l1 ++ l2) results
    = extract_records l2 (extract_records l1 results).
Proof. apply fold_left_app. Qed.

(** X2: when several records have the same name, the last of them decides:
    for a record named X followed by one of the four suffixes, the two
    fields of that suffix in the bundle of X hold the record's real_time and
    cpu_time (0 for an absent one), whatever records come before it and
    whatever records of other names come after it. *)
Theorem last_record_wins (before after : list bench) (b : bench)
    X suffix f_time f_cpu :
  (suffix, (f_time, f_cpu)) ∈ rules ->
  name b = X +:+ suffix ->
  (forall b', b' ∈ after -> name b' <> name b) ->
  let results := extract_records (before ++ b :: after) ∅ in
  field_of results X f_time
    = Some (match real_time b with Some v => v | None => 0%float end) /\
  field_of results X f_cpu
    = Some (match cpu_time b with Some v => v | None => 0%float end).
Proof.
  intros Hin Hname Hafter results. subst results.
  assert (first_rule (name b) = Some (suffix, (f_time, f_cpu))) as Hrule.
  { rewrite Hname. now apply first_rule_app. }
  assert (logical_name b = X) as HX.
  { unfold logical_name. rewrite Hname. eapply strip_with_suffix, Hin. }
  rewrite extract_records_app.
  change (extract_records (b :: after) ?r)
    with (extract_records after (extract_record r b)).
  rewrite <- HX.
  rewrite !(field_kept_by_others after _ b _ _ _ _ Hrule) by tauto.
  exact (field_set_by_record _ b _ _ _ Hrule).
Qed.

Lemma last_record_wins_witness :
  let b := {| name := "A_mean"; real_time := Some 7%float; cpu_time := None |} in
  let after :=
    [ {| name := "A_stddev"; real_time := Some 2%float; cpu_time := Some 2%float |} ] in
  let results := extract_records (zero_mean_records ++ b :: after) ∅ in
  field_of results "A" "mean_time" = Some 7%float /\
  field_of results "A" "mean_cpu" = Some 0%float.
Proof.
  intros b after.
  apply (last_record_wins zero_mean_records after b "A" "_mean" "mean_time" "mean_cpu").
  - unfold rules. apply elem_of_cons. now left.
  - reflexivity.
  - intros b' Hb'. apply list_elem_of_singleton in Hb'. subst b'. discriminate.
Defined.

(** ** The order of records of different names *)

(** Two records of different names and one logical name fill different
    fields, in either order. *)
Lemma fill_comm (b1 b2 : bench) (bd : bundle) :
  name b1 <> name b2 -> logical_name b1 = logical_name b2 ->
  fill b2 (fill b1 bd) = fill b1 (fill b2 bd).
Proof.
  intros Hne HL. apply map_eq. intros f. rewrite !fill_lookup.
  destruct (first_rule (name b1)) as [[s1 [t1 c1]]|] eqn:H1; [|reflexivity].
  destruct (first_rule (name b2)) as [[s2 [t2 c2]]|] eqn:H2; [|reflexivity].
  pose proof (proj1 (first_rule_Some _ _ _ _) H1) as [Hin1 _].
  pose proof (proj1 (first_rule_Some _ _ _ _) H2) as [Hin2 _].
  assert (s1 = s2 -> False) as Hdiff.
  { intros ->. apply Hne.
    rewrite (name_of_rule _ _ _ _ H1), (name_of_rule _ _ _ _ H2).
    fold (logical_name b1) (logical_name b2). now rewrite HL. }
  repeat case_decide; try reflexivity; exfalso; apply Hdiff;
    apply (rule_of_field s1 t1 c1 s2 t2 c2 f); auto.
Qed.

Lemma extract_record_comm (results : result_set) (b1 b2 : bench) :
  name b1 <> name b2 ->
  extract_record (extract_record results b1) b2
    = extract_record (extract_record results b2) b1.
Proof.
  intros Hne. rewrite !extract_record_insert.
  destruct (decide (logical_name b1 = logical_name b2)) as [HL|HL].
  - rewrite HL, !lookup_insert_eq, !insert_insert_eq. cbn [default id].
    f_equal. now apply fill_comm.
  - rewrite !lookup_insert_ne by congruence. now apply insert_insert_ne.
Qed.

Lemma extract_records_perm (l l' : list bench) :
  l ≡ₚ l' -> NoDup (map name l) ->
  forall results, extract_records l results = extract_records l' results.
Proof.
  unfold extract_records.
  induction 1 as [|b l l' Hperm IH|b1 b2 l|l l' l'' H1 IH1 H2 IH2];
    intros Hnames results.
  - reflexivity.
  - cbn [fold_left]. apply IH. cbn [map] in Hnames.
    now apply NoDup_cons in Hnames as [_ ?].
  - cbn [fold_left]. f_equal. apply extract_record_comm.
    cbn [map] in Hnames. apply NoDup_cons in Hnames as [Hnotin _].
    intros Heq. apply Hnotin. rewrite Heq. now left.
  - rewrite IH1 by assumption. apply IH2.
    now rewrite <- (fmap_Permutation name _ _ H1).
Qed.

(** X3: the order of the records matters only among records of one name:
    two sequences of records with pairwise different names that are
    permutations of each other give the same result set. *)
Theorem order_of_distinct_names (records records' : list bench) :
  records ≡ₚ records' -> NoDup (map name records) ->
  extract_results {| benchmarks := Some records |}
    = extract_results {| benchmarks := Some records' |}.
Proof.
  intros Hperm Hnames. unfold extract_results. cbn [benchmarks].
  f_equal. now apply extract_records_perm.
Qed.

Lemma order_of_distinct_names_witness :
  extract_results {| benchmarks := Some (crash_records 1%float) |}
    = extract_results {| benchmarks := Some (rev (crash_records 1%float)) |}.
Proof.
  apply order_of_distinct_names.
  - apply Permutation_rev.
  - cbn. repeat (apply NoDup_cons; split; [set_solver|]). apply NoDup_nil_2.
Defined.

(** With a name that occurs twice the order does matter. *)
Example order_of_equal_names :
  let first := {| name := "A_mean"; real_time := Some 1%float; cpu_time := None |} in
  let second := {| name := "A_mean"; real_time := Some 2%float; cpu_time := None |} in
  field_of (extract_records [first; second] ∅) "A" "mean_time" = Some 2%float /\
  field_of (extract_records [second; first] ∅) "A" "mean_time" = Some 1%float.
Proof. split; reflexivity. Qed.

End Extraction.


(** * More on the Significance Estimator *)

Module Estimator.

Import FloatFacts Significance.

(** ** The function in one expression *)

Lemma outcome bm bs om os :
  compute_significance bm bs om os =
    if PyFloat.is_zero bs && PyFloat.is_zero os then Ok (0%float, "")
    else
      match PyFloat.square bs, PyFloat.square os with
      | Ok _, Ok _ =>
          let se := PrimFloat.sqrt
                      (PrimFloat.add
                         (PrimFloat.div (PrimFloat.mul bs bs) default_n)
                         (PrimFloat.div (PrimFloat.mul os os) default_n)) in
          if PyFloat.is_zero se then Ok (0%float, "")
          else
            let t := PrimFloat.div (PrimFloat.abs (PrimFloat.sub bm om)) se in
            Ok (t, marker_for t)
      | _, _ => Raise OverflowError
      end.
Proof.
  destruct (PyFloat.is_zero bs && PyFloat.is_zero os) eqn:Hz.
  { unfold compute_significance. now rewrite Hz. }
  destruct (PyFloat.square bs) as [b2|e] eqn:Hb.
  2:{ unfold compute_significance. rewrite Hz, Hb.
      apply square_Raise in Hb. now subst e. }
  destruct (PyFloat.square os) as [o2|e] eqn:Ho.
  2:{ unfold compute_significance. rewrite Hz, Hb. cbn [mbind result_bind].
      rewrite truediv_default_n. cbn [mbind result_bind]. rewrite Ho.
      apply square_Raise in Ho. now subst e. }
  pose proof (square_Ok _ _ Hb) as ->. pose proof (square_Ok _ _ Ho) as ->.
  apply (compute_significance_regular _ _ _ _ Hz Hb Ho).
Qed.

(** ** Signs *)

Lemma sign_clear_abs x : sign_clear (SFabs x) = true.
Proof. now destruct x. Qed.

Lemma sign_clear_sqrt x : sign_clear x = true -> sign_clear (SF64sqrt x) = true.
Proof.
  destruct x as [s|s| |s m e]; simpl; intros Hx; try reflexivity;
    destruct s; try discriminate; try reflexivity.
  destruct (SFsqrt_core_binary prec emax (Zpos m) e) as [[mz ez] lz].
  apply sign_clear_round_aux.
Qed.

Lemma sign_clear_quotient x y :
  sign_clear x = true -> sign_clear y = true ->
  sign_clear (SF64div x y) = true.
Proof.
  destruct x as [sx|sx| |sx mx ex], y as [sy|sy| |sy my ey]; simpl;
    intros Hx Hy; try reflexivity;
    destruct sx; try discriminate; destruct sy; try discriminate;
    try reflexivity.
  simpl.
  destruct (SFdiv_core_binary prec emax (Zpos mx) ex (Zpos my) ey) as [[mz ez] lz].
  apply sign_clear_round_aux.
Qed.

Lemma sign_clear_mean_square (a b : float) :
  sign_clear
    (Prim2SF (PrimFloat.add (PrimFloat.div (PrimFloat.mul a a) default_n)
                            (PrimFloat.div (PrimFloat.mul b b) default_n)))
  = true.
Proof.
  rewrite add_spec, !div_spec, !mul_spec.
  assert (H20 : Prim2SF default_n = S754_finite false 5629499534213120 (-48))
    by (vm_compute; reflexivity).
  rewrite H20.
  apply sign_clear_add; apply sign_clear_div, sign_clear_mul_self.
Qed.

(** X4: the t-statistic that [compute_significance] returns is never
    below zero, whatever the signs of the four arguments. *)
Theorem t_statistic_not_negative bm bs om os t m :
  compute_significance bm bs om os = Ok (t, m) ->
  PrimFloat.ltb t 0%float = false.
Proof.
  rewrite outcome.
  destruct (PyFloat.is_zero bs && PyFloat.is_zero os).
  { intros H. inversion H. reflexivity. }
  destruct (PyFloat.square bs); [|discriminate].
  destruct (PyFloat.square os); [|discriminate].
  cbv zeta. destruct (PyFloat.is_zero (PrimFloat.sqrt _)).
  { intros H. inversion H. reflexivity. }
  intros H. inversion H; subst. clear H.
  rewrite FloatAxioms.ltb_spec, div_spec, abs_spec, sqrt_spec.
  change (Prim2SF 0%float) with (S754_zero false).
  apply sign_clear_not_neg, sign_clear_quotient;
    [apply sign_clear_abs | apply sign_clear_sqrt, sign_clear_mean_square].
Qed.

Lemma t_statistic_not_negative_witness :
  PrimFloat.ltb (PrimFloat.div 30%float (PrimFloat.sqrt 2.5%float)) 0%float = false.
Proof.
  apply (t_statistic_not_negative 100%float (-5)%float 130%float 5%float _ "***").
  vm_compute. reflexivity.
Defined.

(** ** Equal means *)

Lemma sub_self x : zero_or_nan (SF64sub x x) = true.
Proof.
  destruct x as [s|s| |s m e]; simpl; try (destruct s; reflexivity);
    try reflexivity.
  now rewrite Z.sub_diag.
Qed.

Lemma zero_or_nan_abs x : zero_or_nan x = true -> zero_or_nan (SFabs x) = true.
Proof. now destruct x. Qed.

Lemma zero_or_nan_div x y :
  zero_or_nan x = true -> zero_or_nan (SF64div x y) = true.
Proof. destruct x, y; simpl; congruence. Qed.

Lemma zero_or_nan_not_above (c t : float) m e :
  Prim2SF c = S754_finite false m e ->
  zero_or_nan (Prim2SF t) = true ->
  PrimFloat.ltb c t = false.
Proof.
  intros Hc Ht. rewrite FloatAxioms.ltb_spec, Hc.
  now destruct (Prim2SF t).
Qed.

Lemma zero_or_nan_marker (t : float) :
  zero_or_nan (Prim2SF t) = true -> marker_for t = "".
Proof.
  intros Ht. unfold marker_for, PyFloat.gt.
  repeat match goal with |- context [PrimFloat.ltb ?c t] =>
    replace (PrimFloat.ltb c t) with false
      by (symmetry; eapply zero_or_nan_not_above; [reflexivity | exact Ht])
  end.
  reflexivity.
Qed.

Lemma equal_means_outcome mean bs os t m :
  compute_significance mean bs mean os = Ok (t, m) ->
  m = "" /\ PrimFloat.ltb 0%float t = false.
Proof.
  rewrite outcome.
  destruct (PyFloat.is_zero bs && PyFloat.is_zero os).
  { intros H. inversion H. split; reflexivity. }
  destruct (PyFloat.square bs); [|discriminate].
  destruct (PyFloat.square os); [|discriminate].
  cbv zeta. destruct (PyFloat.is_zero (PrimFloat.sqrt _)).
  { intros H. inversion H. split; reflexivity. }
  intros H. inversion H; subst. clear H.
  match goal with |- marker_for ?t = _ /\ _ =>
    assert (zero_or_nan (Prim2SF t) = true) as Ht
  end.
  { rewrite div_spec, abs_spec, sub_spec.
    apply zero_or_nan_div, zero_or_nan_abs, sub_self. }
  split; [now apply zero_or_nan_marker|].
  rewrite FloatAxioms.ltb_spec. change (Prim2SF 0%float) with (S754_zero false).
  now destruct (Prim2SF _).
Qed.

(** X5: with equal means nothing is significant: whatever the standard
    deviations, a call of [compute_significance] with the same mean on both
    sides that returns gives the empty marker, and a t-statistic that is not
    above zero. *)
Theorem equal_means_not_significant mean bs os t m :
  compute_significance mean bs mean os = Ok (t, m) ->
  m = "" /\ PrimFloat.ltb 0%float t = false.
Proof. intros H. exact (equal_means_outcome _ _ _ _ _ H). Qed.

Lemma equal_means_not_significant_witness :
  "" = "" /\ PrimFloat.ltb 0%float 0%float = false.
Proof.
  apply (equal_means_not_significant 100%float 5%float 0.001%float).
  vm_compute. reflexivity.
Defined.

(** ** The two sides exchanged *)

Lemma SFabs_round_aux s m e l :
  SFabs (binary_round_aux prec emax s m e l)
    = binary_round_aux prec emax false m e l.
Proof.
  unfold binary_round_aux.
  destruct (shr_fexp prec emax m e l) as [mrs' e'].
  destruct (shr_fexp prec emax _ e' loc_Exact) as [mrs'' e''].
  destruct (shr_m mrs''); [reflexivity| |reflexivity].
  destruct (Z.leb e'' (Z.sub emax prec)); reflexivity.
Qed.

Lemma SFabs_normalize z e :
  SFabs (binary_normalize prec emax (Z.opp z) e false)
    = SFabs (binary_normalize prec emax z e false).
Proof.
  destruct z as [|p|p]; [reflexivity| |]; simpl; unfold binary_round;
    match goal with |- context [shl_align ?a ?b ?c] =>
      destruct (shl_align a b c) as [mz ez] end;
    now rewrite !SFabs_round_aux.
Qed.

Lemma SFabs_sub_comm x y : SFabs (SF64sub x y) = SFabs (SF64sub y x).
Proof.
  destruct x as [sx|sx| |sx mx ex], y as [sy|sy| |sy my ey];
    try reflexivity; try (destruct sx, sy; reflexivity).
  unfold SF64sub, SFsub. cbv zeta.
  rewrite (Z.min_comm ey ex).
  match goal with
  | |- SFabs (binary_normalize _ _ (Z.sub ?a ?b) _ _) = _ =>
      replace (Z.sub a b) with (Z.opp (Z.sub b a)) by lia
  end.
  apply SFabs_normalize.
Qed.

Lemma abs_sub_comm (a b : float) :
  PrimFloat.abs (PrimFloat.sub a b) = PrimFloat.abs (PrimFloat.sub b a).
Proof.
  apply Prim2SF_inj. rewrite !abs_spec, !sub_spec. apply SFabs_sub_comm.
Qed.

Lemma SFadd_comm x y : SF64add x y = SF64add y x.
Proof.
  destruct x as [sx|sx| |sx mx ex], y as [sy|sy| |sy my ey];
    try reflexivity; try (destruct sx, sy; reflexivity).
  unfold SF64add, SFadd. cbv zeta.
  now rewrite (Z.min_comm ey ex), Z.add_comm.
Qed.

Lemma add_comm (a b : float) : PrimFloat.add a b = PrimFloat.add b a.
Proof. apply Prim2SF_inj. rewrite !add_spec. apply SFadd_comm. Qed.

(** X6: [compute_significance] does not tell the baseline from the
    optimized run: with the two (mean, standard deviation) pairs exchanged
    it returns the same t-statistic and marker, or raises the same
    exception. *)
Theorem sides_exchanged bm bs om os :
  compute_significance bm bs om os = compute_significance om os bm bs.
Proof.
  rewrite !outcome. rewrite (andb_comm (PyFloat.is_zero os)).
  destruct (PyFloat.is_zero bs && PyFloat.is_zero os); [reflexivity|].
  destruct (PyFloat.square bs), (PyFloat.square os); try reflexivity.
  cbv zeta.
  rewrite (add_comm (PrimFloat.div (PrimFloat.mul os os) default_n)).
  now rewrite (abs_sub_comm om bm).
Qed.

(** ** The sign of a standard deviation *)

Lemma SFmul_opp x : SF64mul (SFopp x) (SFopp x) = SF64mul x x.
Proof. destruct x as [s|s| |s m e]; try reflexivity; now destruct s. Qed.

Lemma mul_opp (x : float) :
  PrimFloat.mul (PrimFloat.opp x) (PrimFloat.opp x) = PrimFloat.mul x x.
Proof. apply Prim2SF_inj. rewrite !mul_spec, opp_spec. apply SFmul_opp. Qed.

Lemma abs_opp (x : float) : PrimFloat.abs (PrimFloat.opp x) = PrimFloat.abs x.
Proof. apply Prim2SF_inj. rewrite !abs_spec, opp_spec. now destruct (Prim2SF x). Qed.

Lemma is_zero_opp (x : float) : PyFloat.is_zero (PrimFloat.opp x) = PyFloat.is_zero x.
Proof.
  unfold PyFloat.is_zero. rewrite !FloatAxioms.eqb_spec, opp_spec.
  change (Prim2SF 0%float) with (S754_zero false).
  destruct (Prim2SF x) as [s|s| |s m e]; try reflexivity; now destruct s.
Qed.

Lemma square_opp (x : float) : PyFloat.square (PrimFloat.opp x) = PyFloat.square x.
Proof.
  unfold PyFloat.square, PrimFloat.is_infinity. now rewrite mul_opp, abs_opp.
Qed.

(** X12: the sign of a standard deviation does not count:
    [compute_significance] gives the same outcome for a negative standard
    deviation as for its absolute value, on either side. *)
Theorem deviation_sign_ignored bm bs om os :
  compute_significance bm (PrimFloat.opp bs) om os
    = compute_significance bm bs om os /\
  compute_significance bm bs om (PrimFloat.opp os)
    = compute_significance bm bs om os.
Proof.
  split; rewrite !outcome, ?is_zero_opp, ?square_opp, ?mul_opp; reflexivity.
Qed.

End Estimator.


(** * More on the Reporter and the program *)

Module Program.

Import Reporter.

(** ** When the report completes *)

Lemma contains_true {V} (d : gmap string V) k :
  contains d k = true <-> is_Some (d !! k).
Proof. unfold contains. apply bool_decide_eq_true. Qed.

Lemma compare_names_completes (b o : result_set) names acc :
  (forall nm, nm ∈ names -> is_Some (b !! nm)) ->
  (exists acc', (compare_names b o names acc).2 = Ok acc') <->
  (forall nm baseline optimized,
     nm ∈ names -> compared b o nm baseline optimized ->
     exists c, compare_bundles baseline optimized = Ok c).
Proof.
  revert acc. induction names as [|nm names IH]; intros acc Hkeys.
  { split; [|cbn; eauto]. intros _ nm ? ? Hnm. now apply elem_of_nil in Hnm. }
  assert (forall nm', nm' ∈ names -> is_Some (b !! nm')) as Hkeys'
    by (intros; apply Hkeys; now right).
  assert (forall P : string -> Prop,
            (forall nm', nm' ∈ nm :: names -> P nm') <->
            P nm /\ forall nm', nm' ∈ names -> P nm') as Hcons.
  { intros P. split.
    - intros H. split; [apply H; now left | intros; apply H; now right].
    - intros [H1 H2] nm' [->|Hin]%elem_of_cons; auto. }
  rewrite compare_names_cons, compare_name_cases.
  destruct (Hkeys nm ltac:(left)) as [baseline Hb]. rewrite Hb.
  unfold compared.
  destruct (o !! nm) as [optimized|] eqn:Ho.
  2:{ rewrite prog_bind_Ok. cbn [snd]. rewrite (IH acc Hkeys'). split.
      - intros H nm' bl op [->|Hin]%elem_of_cons Hc;
          [|exact (H nm' bl op Hin Hc)].
        destruct Hc as (_ & Ho' & _). congruence.
      - intros H nm' bl op Hin. apply H. now right. }
  destruct (contains baseline "mean_cpu" && contains optimized "mean_cpu")
    eqn:Hguard.
  2:{ rewrite prog_bind_Ok. cbn [snd]. rewrite (IH acc Hkeys'). split.
      - intros H nm' bl op [->|Hin]%elem_of_cons Hc;
          [|exact (H nm' bl op Hin Hc)].
        destruct Hc as (Hb' & Ho' & H1 & H2).
        assert (bl = baseline) by congruence.
        assert (op = optimized) by congruence. subst.
        apply contains_true in H1, H2. rewrite H1, H2 in Hguard. discriminate.
      - intros H nm' bl op Hin. apply H. now right. }
  apply andb_true_iff in Hguard as [G1 G2]. apply contains_true in G1, G2.
  destruct (compare_bundles baseline optimized) as [c|e] eqn:Hc.
  - rewrite prog_bind_Ok. cbn [snd]. rewrite IH by exact Hkeys'. split.
    + intros H nm' bl op [->|Hin]%elem_of_cons Hcmp;
        [|exact (H nm' bl op Hin Hcmp)].
      destruct Hcmp as (Hb' & Ho' & _).
      assert (bl = baseline) by congruence.
      assert (op = optimized) by congruence. subst. eauto.
    + intros H nm' bl op Hin. apply H. now right.
  - rewrite prog_bind_Raise. cbn [snd]. split.
    + intros [acc' H]. discriminate.
    + intros H. destruct (H nm baseline optimized ltac:(left)) as [c Hc'];
        [repeat split; assumption | congruence].
Qed.

(** X7: the report runs to its end exactly when the comparison of the two
    bundles returns for every name of the baseline that passes both guards;
    the lookups of the loop itself never fail. *)
Theorem report_completes_iff (b o : result_set) :
  (report b o).2 = Ok tt <->
  (forall nm baseline optimized,
     compared b o nm baseline optimized ->
     exists c, compare_bundles baseline optimized = Ok c).
Proof.
  rewrite report_run.
  pose proof (compare_names_completes b o (sorted_keys b) []
                (fun nm H => proj1 (elem_of_sorted_keys b nm) H)) as Hloop.
  split.
  - intros Hok nm baseline optimized Hc.
    assert (exists acc', (compare_names b o (sorted_keys b) []).2 = Ok acc')
      as Hacc.
    { destruct (compare_names b o (sorted_keys b) []).2; [eauto|discriminate]. }
    apply (proj1 Hloop Hacc nm baseline optimized); [|exact Hc].
    apply elem_of_sorted_keys. destruct Hc as [-> _]. eauto.
  - intros H. destruct (proj2 Hloop) as [acc' Hacc'].
    { intros nm baseline optimized _. apply H. }
    now rewrite Hacc'.
Qed.

(** ** A result set compared with itself *)

Lemma zero_or_nan_mul x m e :
  zero_or_nan x = true -> zero_or_nan (SF64mul x (S754_finite false m e)) = true.
Proof. now destruct x. Qed.

(** The percentage change of a value against itself is a zero or not a
    number. *)
Lemma change_of_equal (x : float) :
  zero_or_nan
    (Prim2SF (PrimFloat.mul (PrimFloat.div (PrimFloat.sub x x) x) 100%float))
  = true.
Proof.
  rewrite mul_spec, div_spec, sub_spec.
  assert (H100 : Prim2SF 100%float = S754_finite false 7036874417766400 (-46))
    by (vm_compute; reflexivity).
  rewrite H100.
  apply zero_or_nan_mul, Estimator.zero_or_nan_div, Estimator.sub_self.
Qed.

Lemma zero_or_nan_compare (x c : float) :
  zero_or_nan (Prim2SF x) = true ->
  Prim2SF c = S754_zero false \/ (exists m e, Prim2SF c = S754_finite true m e) ->
  PrimFloat.ltb x c = false.
Proof.
  intros Hx Hc. rewrite FloatAxioms.ltb_spec.
  destruct Hc as [->|(m & e & ->)]; now destruct (Prim2SF x).
Qed.

Lemma compare_bundles_self (bd : bundle) c :
  compare_bundles bd bd = Ok c ->
  flat_row (Print (TableRow "" (time_change c) (cpu_change c)
                            (sig_marker c) (t_stat c))).
Proof.
  intros Hc.
  destruct (bd !! "mean_time") as [x_time|] eqn:Ht.
  2:{ unfold compare_bundles, getitem in Hc. rewrite Ht in Hc. discriminate. }
  destruct (bd !! "mean_cpu") as [x_cpu|] eqn:Hcpu.
  2:{ unfold compare_bundles, getitem in Hc. rewrite Ht, Hcpu in Hc.
      cbn [mbind result_bind] in Hc.
      destruct (PyFloat.truediv _ _); discriminate. }
  rewrite (compare_bundles_means _ _ _ _ _ _ Ht Ht Hcpu Hcpu) in Hc.
  destruct (PyFloat.is_zero x_time); [discriminate|].
  destruct (PyFloat.is_zero x_cpu); [discriminate|].
  destruct (compute_significance _ _ _ _) as [[t m]|e] eqn:He; [|discriminate].
  inversion Hc; subst. clear Hc. cbn [flat_row time_change cpu_change sig_marker fst snd].
  destruct (Estimator.equal_means_outcome _ _ _ _ _ He) as [-> _].
  pose proof (change_of_equal x_time) as Zt.
  pose proof (change_of_equal x_cpu) as Zc.
  assert (forall x, zero_or_nan (Prim2SF x) = true ->
            PrimFloat.ltb 0%float x = false) as Hpos.
  { intros x Hx. rewrite FloatAxioms.ltb_spec.
    change (Prim2SF 0%float) with (S754_zero false). now destruct (Prim2SF x). }
  repeat split; auto;
    apply zero_or_nan_compare; auto;
    right; eexists _, _; reflexivity.
Qed.

Lemma not_a_row e out :
  Forall (fun e => row_name e = None) out -> e ∈ out -> row_name e = None.
Proof. intros H Hin. rewrite Forall_forall in H. now apply H. Qed.

(** A table row of the report is a row of the loop. *)
Lemma row_in_report (b o : result_set) nm tc cc m t :
  Print (TableRow nm tc cc m t) ∈ (report b o).1 ->
  Print (TableRow nm tc cc m t) ∈ (compare_names b o (sorted_keys b) []).1.
Proof.
  rewrite report_run. intros Hin.
  destruct (compare_names b o (sorted_keys b) []).2 as [acc|e]; cbn [fst] in Hin.
  - apply elem_of_app in Hin as [Hin|Hin];
      [apply (not_a_row _ _ heading_no_rows) in Hin; discriminate|].
    apply elem_of_app in Hin as [Hin|Hin]; [exact Hin|].
    apply elem_of_app in Hin as [Hin|Hin].
    + apply (not_a_row _ _ legend_no_rows) in Hin. discriminate.
    + apply (not_a_row _ _ (summary_no_rows acc)) in Hin. discriminate.
  - apply elem_of_app in Hin as [Hin|Hin]; [|exact Hin].
    apply (not_a_row _ _ heading_no_rows) in Hin. discriminate.
Qed.

Lemma flat_row_any_name nm nm' tc cc m t :
  flat_row (Print (TableRow nm tc cc m t)) ->
  flat_row (Print (TableRow nm' tc cc m t)).
Proof. exact (fun H => H). Qed.

Lemma compare_names_self (b : result_set) names acc :
  Forall flat_row (compare_names b b names acc).1.
Proof.
  revert acc. induction names as [|nm names IH]; intros acc; [constructor|].
  rewrite compare_names_cons, compare_name_cases.
  destruct (b !! nm) as [bd|]; [|rewrite prog_bind_Ok; apply IH].
  destruct (contains bd "mean_cpu" && contains bd "mean_cpu");
    [|rewrite prog_bind_Ok; apply IH].
  destruct (compare_bundles bd bd) as [c|e] eqn:Hc;
    [|rewrite prog_bind_Raise; constructor].
  rewrite prog_bind_Ok. cbn [fst app]. constructor; [|apply IH].
  eapply flat_row_any_name, compare_bundles_self, Hc.
Qed.

Lemma flat_row_no_improvement e : flat_row e -> improvement_of e = None.
Proof.
  destruct e as [f|[s|nm tc cc m t|? ? ?|?]]; try reflexivity.
  cbn [flat_row improvement_of]. intros (_ & _ & _ & _ & _ & ->). reflexivity.
Qed.

Lemma flat_rows_no_improvements out :
  Forall flat_row out -> improvements_of out = [].
Proof.
  induction 1 as [|e out He _ IH]; [reflexivity|].
  now rewrite improvements_of_cons, (flat_row_no_improvement _ He).
Qed.

(** X8: a result set compared with itself shows no change: every table
    row has the empty marker and a time change and a CPU change that are
    neither above nor below zero, no row counts as an improvement, and a run
    that ends without an exception ends with the notice that there is no
    significant improvement. *)
Theorem self_comparison (b : result_set) :
  let out := (report b b).1 in
  (forall nm tc cc m t,
     Print (TableRow nm tc cc m t) ∈ out ->
     m = "" /\
     PrimFloat.ltb tc 0%float = false /\ PrimFloat.ltb 0%float tc = false /\
     PrimFloat.ltb cc 0%float = false /\ PrimFloat.ltb 0%float cc = false) /\
  improvements_of out = [] /\
  (forall u, (report b b).2 = Ok u ->
     exists rows,
       out = heading ++ rows ++ print_legend.1 ++
             map Print
               [Text rule;
                Text "NO STATISTICALLY SIGNIFICANT IMPROVEMENTS DETECTED";
                Text rule;
                Text "";
                Text "Note: For gains < 3%, statistical significance (p < 0.05) is required.";
                Text "      Without significance markers (* ** ***), gains may be noise."]).
Proof.
  intros out.
  pose proof (compare_names_self b (sorted_keys b) []) as Hloop.
  assert (improvements_of out = []) as Himp.
  { subst out. rewrite improvements_of_report.
    now apply flat_rows_no_improvements. }
  split; [|split; [exact Himp|]].
  - intros nm tc cc m t Hin.
    assert (Print (TableRow nm tc cc m t)
              ∈ (compare_names b b (sorted_keys b) []).1) as Hin'.
    { subst out. now apply row_in_report. }
    rewrite Forall_forall in Hloop. specialize (Hloop _ Hin').
    cbn [flat_row] in Hloop. tauto.
  - intros u Hu. subst out.
    destruct (compare_names_run b b (sorted_keys b) []) as (_ & _ & Hok).
    rewrite report_run in Hu |- *.
    destruct (compare_names b b (sorted_keys b) []).2 as [acc|e] eqn:Hacc;
      [|discriminate].
    destruct (Hok acc eq_refl) as [_ Hd]. rewrite app_nil_l in Hd.
    rewrite (flat_rows_no_improvements _ Hloop) in Hd. subst acc.
    eexists. reflexivity.
Qed.

(** ** Nothing to compare *)

Lemma compare_names_none (b o : result_set) names acc :
  (forall nm, nm ∈ names -> is_Some (b !! nm)) ->
  (forall nm, nm ∈ names -> eligible b o nm = false) ->
  compare_names b o names acc = ([], Ok acc).
Proof.
  revert acc. induction names as [|nm names IH]; intros acc Hkeys Hnone;
    [reflexivity|].
  rewrite compare_names_cons, compare_name_cases.
  pose proof (Hnone nm ltac:(left)) as Hel. unfold eligible in Hel.
  destruct (Hkeys nm ltac:(left)) as [baseline Hb]. rewrite Hb in Hel |- *.
  destruct (o !! nm) as [optimized|].
  - rewrite Hel, prog_bind_Ok. cbn [fst snd app].
    rewrite IH; [reflexivity| |]; intros; [apply Hkeys|apply Hnone]; now right.
  - rewrite prog_bind_Ok. cbn [fst snd app].
    rewrite IH; [reflexivity| |]; intros; [apply Hkeys|apply Hnone]; now right.
Qed.

(** X11: when no name of the baseline is in the optimized result set with
    a mean_cpu in both bundles, so also when a result set is empty, the
    report fails in no way: it is the heading, no row, the legend and the
    notice that there is no significant improvement. *)
Theorem nothing_to_compare (b o : result_set) :
  (forall nm, eligible b o nm = false) ->
  report b o =
    (heading ++ print_legend.1 ++
     map Print
       [Text rule;
        Text "NO STATISTICALLY SIGNIFICANT IMPROVEMENTS DETECTED";
        Text rule;
        Text "";
        Text "Note: For gains < 3%, statistical significance (p < 0.05) is required.";
        Text "      Without significance markers (* ** ***), gains may be noise."],
     Ok tt).
Proof.
  intros Hnone. rewrite report_run.
  rewrite (compare_names_none b o (sorted_keys b) []); [reflexivity| |].
  - intros nm. apply elem_of_sorted_keys.
  - intros nm _. apply Hnone.
Qed.

Lemma nothing_to_compare_witness :
  report ∅ (extract_records zero_mean_records ∅) =
    (heading ++ print_legend.1 ++
     map Print
       [Text rule;
        Text "NO STATISTICALLY SIGNIFICANT IMPROVEMENTS DETECTED";
        Text rule;
        Text "";
        Text "Note: For gains < 3%, statistical significance (p < 0.05) is required.";
        Text "      Without significance markers (* ** ***), gains may be noise."],
     Ok tt).
Proof.
  apply (nothing_to_compare ∅ (extract_records zero_mean_records ∅)).
  intros nm. unfold eligible. now rewrite lookup_empty.
Defined.

(** ** How a run can fail *)

Lemma compare_bundles_errors (baseline optimized : bundle) e :
  paired baseline -> paired optimized ->
  is_Some (baseline !! "mean_cpu") -> is_Some (optimized !! "mean_cpu") ->
  compare_bundles baseline optimized = Raise e ->
  e = ZeroDivisionError \/ e = OverflowError.
Proof.
  intros Pb Po [b_cpu Hbc] [o_cpu Hoc].
  assert ("mean" ∈ kinds) as Hmean by (unfold kinds; set_solver).
  destruct (proj2 (Pb "mean" Hmean) (ex_intro _ b_cpu Hbc)) as [b_time Hbt].
  destruct (proj2 (Po "mean" Hmean) (ex_intro _ o_cpu Hoc)) as [o_time Hot].
  rewrite (compare_bundles_means _ _ _ _ _ _ Hbt Hot Hbc Hoc).
  destruct (PyFloat.is_zero b_time); [intros H; inversion H; tauto|].
  destruct (PyFloat.is_zero b_cpu); [intros H; inversion H; tauto|].
  destruct (compute_significance _ _ _ _) as [ts|e'] eqn:He; [discriminate|].
  apply Significance.raises_only_overflow in He. subst e'.
  intros H; inversion H; tauto.
Qed.

Lemma compare_names_errors (b o : result_set) names acc e :
  all_paired b -> all_paired o ->
  (forall nm, nm ∈ names -> is_Some (b !! nm)) ->
  (compare_names b o names acc).2 = Raise e ->
  e = ZeroDivisionError \/ e = OverflowError.
Proof.
  intros Pb Po. revert acc.
  induction names as [|nm names IH]; intros acc Hkeys; [discriminate|].
  assert (forall nm', nm' ∈ names -> is_Some (b !! nm')) as Hkeys'
    by (intros; apply Hkeys; now right).
  rewrite compare_names_cons, compare_name_cases.
  destruct (Hkeys nm ltac:(left)) as [baseline Hb]. rewrite Hb.
  destruct (o !! nm) as [optimized|] eqn:Ho;
    [|rewrite prog_bind_Ok; now apply IH].
  destruct (contains baseline "mean_cpu") eqn:Cb; cbn [andb];
    [|rewrite prog_bind_Ok; now apply IH].
  destruct (contains optimized "mean_cpu") eqn:Co;
    [|rewrite prog_bind_Ok; now apply IH].
  apply contains_true in Cb, Co.
  destruct (compare_bundles baseline optimized) as [c|e'] eqn:Hc.
  - rewrite prog_bind_Ok. now apply IH.
  - rewrite prog_bind_Raise. cbn [snd]. intros H. inversion H; subst.
    exact (compare_bundles_errors baseline optimized e
             (Pb _ _ Hb) (Po _ _ Ho) Cb Co Hc).
Qed.

Lemma report_errors (records optimized_records : list bench) e :
  (report (extract_records records ∅)
          (extract_records optimized_records ∅)).2 = Raise e ->
  e = ZeroDivisionError \/ e = OverflowError.
Proof.
  rewrite report_run.
  destruct (compare_names _ _ _ _).2 as [acc|e'] eqn:Hloop; [discriminate|].
  cbn [snd]. intros H. inversion H; subst.
  eapply compare_names_errors; [| | |exact Hloop].
  - apply Aggregator.all_paired_extract_records, Aggregator.all_paired_empty.
  - apply Aggregator.all_paired_extract_records, Aggregator.all_paired_empty.
  - intros nm. apply elem_of_sorted_keys.
Qed.

Lemma main_three (fs : filesystem) script f1 f2 :
  main fs [script; f1; f2] = compare_benchmarks fs f1 f2.
Proof.
  unfold main. cbn [length Nat.eqb negb]. unfold lift, argv_item.
  cbn [lookup list_lookup]. rewrite !prog_bind_Ok.
  cbn [app fst snd]. now destruct (compare_benchmarks _ _ _).
Qed.

Lemma main_usage (fs : filesystem) argv :
  length argv <> 3 -> main fs argv = ([Print (Text usage)], Raise (SystemExit 1)).
Proof.
  intros Hlen. unfold main.
  destruct (Nat.eqb_spec (length argv) 3) as [|_]; [contradiction|].
  reflexivity.
Qed.

(** The run of [compare_benchmarks], by what the two files give. *)
Lemma compare_benchmarks_cases (fs : filesystem) f1 f2 :
  compare_benchmarks fs f1 f2 =
    match fs f1 with
    | Raise e => ([Open f1], Raise e)
    | Ok d1 =>
        match fs f2 with
        | Raise e => ([Open f1; Open f2], Raise e)
        | Ok d2 =>
            match benchmarks d1, benchmarks d2 with
            | Some r1, Some r2 =>
                ([Open f1; Open f2] ++
                 (report (extract_records r1 ∅) (extract_records r2 ∅)).1,
                 (report (extract_records r1 ∅) (extract_records r2 ∅)).2)
            | _, _ => ([Open f1; Open f2], Raise (KeyError "benchmarks"))
            end
        end
    end.
Proof.
  unfold compare_benchmarks, load_benchmark, lift, extract_results.
  destruct (fs f1) as [d1|e]; [|reflexivity]. rewrite prog_bind_Ok.
  destruct (fs f2) as [d2|e]; [|reflexivity]. rewrite prog_bind_Ok.
  destruct (benchmarks d1) as [r1|]; [|reflexivity]. rewrite prog_bind_Ok.
  destruct (benchmarks d2) as [r2|]; [|reflexivity]. rewrite prog_bind_Ok.
  reflexivity.
Qed.

(** X9: on documents of the expected shape (a JSON object whose
    benchmarks, when it has them, are records with a name and with numbers
    for the real_time and cpu_time they have), and with an output that
    takes every line, the ways the script can fail are these: the exit with
    status 1 on a wrong number of arguments; the exception of opening or
    parsing one of the two files; a KeyError for a document without
    [benchmarks]; a ZeroDivisionError; an OverflowError.  No lookup of a
    field of a bundle fails, no argument is missing where it is read, and
    no square root is of a negative number. *)
Theorem failures_of_main (fs : filesystem) (argv : list string) e :
  (main fs argv).2 = Raise e ->
  (length argv <> 3 /\ e = SystemExit 1) \/
  (exists f, f ∈ argv /\ fs f = Raise e) \/
  e = KeyError "benchmarks" \/
  e = ZeroDivisionError \/ e = OverflowError.
Proof.
  destruct (decide (length argv = 3)) as [Hlen|Hlen].
  2:{ rewrite (main_usage fs argv Hlen). cbn [snd]. intros H. inversion H.
      left. split; [exact Hlen | reflexivity]. }
  destruct argv as [|script [|f1 [|f2 [|? ?]]]]; try discriminate.
  rewrite main_three, compare_benchmarks_cases.
  destruct (fs f1) as [d1|e1] eqn:H1.
  2:{ cbn [snd]. intros H. inversion H; subst. right. left.
      exists f1. split; [set_solver | exact H1]. }
  destruct (fs f2) as [d2|e2] eqn:H2.
  2:{ cbn [snd]. intros H. inversion H; subst. right. left.
      exists f2. split; [set_solver | exact H2]. }
  destruct (benchmarks d1) as [r1|];
    [|cbn [snd]; intros H; inversion H; tauto].
  destruct (benchmarks d2) as [r2|];
    [|cbn [snd]; intros H; inversion H; tauto].
  cbn [snd]. intros H. apply report_errors in H. tauto.
Qed.

Lemma failures_of_main_witness :
  let fs : filesystem := fun f => Raise (FileNotFoundError f) in
  let argv := ["compare_benchmarks.py"; "a.json"; "b.json"] in
  let e := FileNotFoundError "a.json" in
  (length argv <> 3 /\ e = SystemExit 1) \/
  (exists f, f ∈ argv /\ fs f = Raise e) \/
  e = KeyError "benchmarks" \/
  e = ZeroDivisionError \/ e = OverflowError.
Proof.
  intros fs argv e. apply (failures_of_main fs argv e). reflexivity.
Defined.

(** ** Input before output *)

Lemma report_prints (b o : result_set) :
  Forall (fun ev => exists l, ev = Print l) (report b o).1.
Proof.
  rewrite report_run.
  destruct (compare_names_run b o (sorted_keys b) []) as (_ & Hrows & _).
  assert (Forall (fun ev => exists l, ev = Print l)
                 (compare_names b o (sorted_keys b) []).1) as Hloop.
  { eapply Forall_impl; [exact Hrows|].
    intros [f|l] [nm H]; [discriminate | eauto]. }
  assert (forall ls, Forall (fun ev => exists l, ev = Print l) (map Print ls))
    as Hmap.
  { intros ls. apply Forall_map, Forall_forall. eauto. }
  destruct (compare_names b o (sorted_keys b) []).2; cbn [fst];
    repeat apply Forall_app_2; auto;
    repeat constructor; eauto.
Qed.

Lemma printed_lines out :
  Forall (fun ev => exists l, ev = Print l) out ->
  exists lines, out = map Print lines.
Proof.
  induction 1 as [|ev out [l ->] _ [lines ->]]; [now exists []|].
  now exists (l :: lines).
Qed.

(** X10: [compare_benchmarks] opens the baseline file first and the
    optimized file second, and prints only after that: when the baseline
    file cannot be loaded the optimized file is not opened at all; when it
    can, the events are the two openings followed by nothing but printed
    lines; and a line is printed only if both files were loaded and both
    documents have [benchmarks]. *)
Theorem inputs_before_output (fs : filesystem) (f1 f2 : string) :
  (forall e, fs f1 = Raise e ->
     compare_benchmarks fs f1 f2 = ([Open f1], Raise e)) /\
  (forall d1, fs f1 = Ok d1 ->
     exists lines,
       (compare_benchmarks fs f1 f2).1 = Open f1 :: Open f2 :: map Print lines) /\
  (forall l, Print l ∈ (compare_benchmarks fs f1 f2).1 ->
     exists d1 d2 r1 r2,
       fs f1 = Ok d1 /\ fs f2 = Ok d2 /\
       benchmarks d1 = Some r1 /\ benchmarks d2 = Some r2).
Proof.
  rewrite compare_benchmarks_cases.
  assert (forall l f g, Print l ∈ [Open f; Open g] -> False) as Hopen.
  { intros l f g H. repeat (apply elem_of_cons in H as [H|H]; [discriminate|]).
    now apply elem_of_nil in H. }
  split; [|split].
  - intros e ->. reflexivity.
  - intros d1 ->. destruct (fs f2) as [d2|e]; [|now exists []].
    destruct (benchmarks d1) as [r1|]; [|now exists []].
    destruct (benchmarks d2) as [r2|]; [|now exists []].
    cbn [fst app].
    destruct (printed_lines _
                (report_prints (extract_records r1 ∅) (extract_records r2 ∅)))
      as [lines ->].
    now exists lines.
  - intros l. destruct (fs f1) as [d1|e].
    2:{ cbn [fst]. intros H. apply list_elem_of_singleton in H. discriminate. }
    destruct (fs f2) as [d2|e]; [|cbn [fst]; intros H; destruct (Hopen _ _ _ H)].
    destruct (benchmarks d1) as [r1|] eqn:E1;
      [|cbn [fst]; intros H; destruct (Hopen _ _ _ H)].
    destruct (benchmarks d2) as [r2|] eqn:E2;
      [|cbn [fst]; intros H; destruct (Hopen _ _ _ H)].
    intros _. exists d1, d2, r1, r2. repeat split; assumption.
Qed.

End Program.


(** * The Significance Estimator over the platform's pow *)

Module Power.

Import FloatFacts.

(** ** The special bases *)

Lemma is_nan_nan x : PrimFloat.is_nan x = true -> Prim2SF x = S754_nan.
Proof.
  unfold PrimFloat.is_nan. rewrite FloatAxioms.eqb_spec.
  destruct (Prim2SF x) as [s|s| |s m e]; try reflexivity; unfold SFeqb;
    simpl; try (destruct s; discriminate).
  rewrite Z.compare_refl, Pos.compare_cont_refl. destruct s; discriminate.
Qed.

Lemma is_nan_false x : PrimFloat.is_nan x = false -> Prim2SF x <> S754_nan.
Proof.
  unfold PrimFloat.is_nan. rewrite FloatAxioms.eqb_spec. intros H E.
  rewrite E in H. discriminate.
Qed.

Lemma is_infinity_infinity x :
  PrimFloat.is_infinity x = true -> exists s, Prim2SF x = S754_infinity s.
Proof.
  unfold PrimFloat.is_infinity. rewrite FloatAxioms.eqb_spec, abs_spec.
  change (Prim2SF infinity) with (S754_infinity false).
  destruct (Prim2SF x) as [s|s| |s m e]; try discriminate. eauto.
Qed.

Lemma eqb_zero_zero x :
  PrimFloat.eqb x 0%float = true -> exists s, Prim2SF x = S754_zero s.
Proof.
  rewrite FloatAxioms.eqb_spec. change (Prim2SF 0%float) with (S754_zero false).
  destruct (Prim2SF x) as [s|s| |s m e]; try discriminate; eauto;
    destruct s; discriminate.
Qed.

(** For a number that is not zero, the base handed to [pow] is the
    absolute value. *)
Lemma opp_or_self x :
  PrimFloat.eqb x 0%float = false ->
  (if PrimFloat.ltb x 0%float then PrimFloat.opp x else x) = PrimFloat.abs x.
Proof.
  intros Hz. apply Prim2SF_inj. rewrite abs_spec.
  rewrite FloatAxioms.eqb_spec in Hz. rewrite FloatAxioms.ltb_spec.
  change (Prim2SF 0%float) with (S754_zero false) in *.
  destruct (Prim2SF x) as [s|s| |s m e] eqn:E; try discriminate;
    try (destruct s; cbn; rewrite ?opp_spec, E; reflexivity).
  cbn. now rewrite E.
Qed.

Lemma abs_positive x :
  PrimFloat.is_nan x = false -> PrimFloat.eqb x 0%float = false ->
  PrimFloat.ltb 0%float (PrimFloat.abs x) = true.
Proof.
  intros Hn Hz. apply is_nan_false in Hn.
  rewrite FloatAxioms.eqb_spec in Hz. rewrite FloatAxioms.ltb_spec, abs_spec.
  change (Prim2SF 0%float) with (S754_zero false) in *.
  destruct (Prim2SF x) as [s|s| |s m e]; try discriminate; try reflexivity.
  now destruct Hn.
Qed.

Lemma abs_of_infinity x :
  PrimFloat.is_infinity x = true -> PrimFloat.abs x = infinity.
Proof.
  intros [s E]%is_infinity_infinity. apply Prim2SF_inj.
  now rewrite abs_spec, E.
Qed.

(** ** The power *)

(** [x ** 2] raises for the bases whose power is out of range, and is the
    power for every other base. *)
Lemma pow_two_cases (pow : libm_pow) x :
  well_behaved pow ->
  PyFloat.pow_two pow x =
    if out_of_range pow x then Raise OverflowError else Ok (squared pow x).
Proof.
  intros Hpow. unfold PyFloat.pow_two, out_of_range, squared, ordinary.
  destruct (PrimFloat.is_nan x) eqn:Hn; [reflexivity|].
  destruct (PrimFloat.is_infinity x) eqn:Hi.
  { cbn [negb andb]. now rewrite (abs_of_infinity _ Hi). }
  destruct (PrimFloat.eqb x 0%float) eqn:Hz; [reflexivity|].
  rewrite (opp_or_self _ Hz).
  destruct (PrimFloat.eqb (PrimFloat.abs x) 1%float); [reflexivity|].
  cbn [negb andb].
  destruct (Hpow _ (abs_positive _ Hn Hz)) as [Herr _].
  destruct (pow (PrimFloat.abs x) 2%float) as [ix err]. cbn [fst snd] in *.
  destruct err; [| |congruence].
  - now destruct (PrimFloat.is_infinity ix).
  - now destruct (PrimFloat.eqb ix 0%float).
Qed.

Lemma squared_not_neg (pow : libm_pow) x :
  well_behaved pow -> PrimFloat.ltb (squared pow x) 0%float = false.
Proof.
  intros Hpow. unfold squared, ordinary.
  destruct (PrimFloat.is_nan x) eqn:Hn.
  { cbn [negb andb]. rewrite FloatAxioms.ltb_spec, (is_nan_nan _ Hn).
    reflexivity. }
  destruct (PrimFloat.is_infinity x); [reflexivity|].
  destruct (PrimFloat.eqb x 0%float) eqn:Hz; [reflexivity|].
  destruct (PrimFloat.eqb (PrimFloat.abs x) 1%float); [reflexivity|].
  cbn [negb andb]. now apply Hpow, abs_positive.
Qed.

(** ** The square root *)

Lemma not_neg_cases x :
  SFltb x (S754_zero false) = false ->
  x = S754_zero true \/ sign_clear x = true.
Proof.
  destruct x as [s|s| |s m e]; cbn; intros H; try (now right);
    destruct s; try discriminate; auto.
Qed.

Lemma not_neg_div x m e :
  SFltb x (S754_zero false) = false ->
  SFltb (SF64div x (S754_finite false m e)) (S754_zero false) = false.
Proof.
  intros [->|H]%not_neg_cases; [reflexivity|].
  now apply sign_clear_not_neg, sign_clear_div.
Qed.

Lemma not_neg_add x y :
  SFltb x (S754_zero false) = false -> SFltb y (S754_zero false) = false ->
  SFltb (SF64add x y) (S754_zero false) = false.
Proof.
  intros [->|Hx]%not_neg_cases Hy.
  { destruct y as [s|s| |s m e]; try exact Hy. now destruct s. }
  apply not_neg_cases in Hy as [->|Hy].
  { destruct x as [s|s| |s m e]; try (now apply sign_clear_not_neg).
    now destruct s. }
  now apply sign_clear_not_neg, sign_clear_add.
Qed.

(** The square root of the estimator does not raise when neither power
    is below zero. *)
Lemma sqrt_of_means (a b : float) :
  PrimFloat.ltb a 0%float = false -> PrimFloat.ltb b 0%float = false ->
  PyFloat.sqrt (PrimFloat.add (PrimFloat.div a default_n)
                              (PrimFloat.div b default_n))
  = Ok (PrimFloat.sqrt (PrimFloat.add (PrimFloat.div a 20%float)
                                      (PrimFloat.div b 20%float))).
Proof.
  intros Ha Hb. unfold PyFloat.sqrt, default_n.
  rewrite FloatAxioms.ltb_spec in Ha, Hb.
  change (Prim2SF 0%float) with (S754_zero false) in *.
  assert (PrimFloat.ltb (PrimFloat.add (PrimFloat.div a 20%float)
                                       (PrimFloat.div b 20%float)) 0%float
          = false) as ->; [|reflexivity].
  rewrite FloatAxioms.ltb_spec, add_spec, !div_spec.
  change (Prim2SF 0%float) with (S754_zero false).
  assert (H20 : Prim2SF 20%float = S754_finite false 5629499534213120 (-48))
    by (vm_compute; reflexivity).
  rewrite H20. apply not_neg_add; now apply not_neg_div.
Qed.

(** ** The function *)

Lemma rounded_pow_well_behaved : well_behaved rounded_pow.
Proof.
  intros x _. split; [discriminate|]. cbn.
  rewrite FloatAxioms.ltb_spec, mul_spec.
  apply sign_clear_not_neg, sign_clear_mul_self.
Qed.

(** A standard deviation of [1e200] is not zero, and its power is out of
    range: the function raises and returns nothing.  And two equal means
    give [(0, "")] where no standard deviation and no standard error is
    zero. *)
Lemma estimator_cases_counterexample :
  (PrimFloat.eqb 1e200%float 0%float = false /\
   compute_significance_with rounded_pow 0%float 1e200%float 0%float 0%float
     = Raise OverflowError) /\
  (PrimFloat.eqb 5%float 0%float = false /\
   PrimFloat.eqb
     (PrimFloat.sqrt (PrimFloat.add (PrimFloat.div 25%float 20%float)
                                    (PrimFloat.div 25%float 20%float)))
     0%float = false /\
   compute_significance_with rounded_pow 100%float 5%float 100%float 5%float
     = Ok (0%float, "")).
Proof. repeat split; vm_compute; reflexivity. Qed.

(** C3, amended: with the squares [x ** 2] as the platform's [pow] gives
    them, never below zero and with no error but a range error,
    [compute_significance] returns [(0, "")] when both standard deviations
    are zero, and when the standard error
    [sqrt(baseline_std**2/20 + optimized_std**2/20)] is zero although a
    standard deviation is not; when a standard deviation is not zero and one
    of the two squares is out of the float range ([pow] returns an infinity
    for a finite base, or reports a range error with a value that is not
    zero) it raises OverflowError; in all other cases it returns
    [|baseline_mean - optimized_mean|] divided by the standard error, with
    the marker of that value by the thresholds. *)
Theorem compute_significance_cases (pow : libm_pow) bm bs om os :
  well_behaved pow ->
  (PrimFloat.eqb bs 0%float = true -> PrimFloat.eqb os 0%float = true ->
   compute_significance_with pow bm bs om os = Ok (0%float, "")) /\
  (PrimFloat.eqb bs 0%float && PrimFloat.eqb os 0%float = false ->
   (out_of_range pow bs || out_of_range pow os = true ->
    compute_significance_with pow bm bs om os = Raise OverflowError) /\
   (out_of_range pow bs || out_of_range pow os = false ->
    let se := PrimFloat.sqrt
                (PrimFloat.add (PrimFloat.div (squared pow bs) 20%float)
                               (PrimFloat.div (squared pow os) 20%float)) in
    let t := PrimFloat.div (PrimFloat.abs (PrimFloat.sub bm om)) se in
    (PrimFloat.eqb se 0%float = true ->
     compute_significance_with pow bm bs om os = Ok (0%float, "")) /\
    (PrimFloat.eqb se 0%float = false ->
     compute_significance_with pow bm bs om os =
       Ok (t, if PrimFloat.ltb 3.85%float t then "***"
              else if PrimFloat.ltb 2.85%float t then "**"
              else if PrimFloat.ltb 2.09%float t then "*"
              else if PrimFloat.ltb 1.68%float t then "."
              else "")))).
Proof.
  intros Hpow. split.
  { intros Hb Ho. unfold compute_significance_with, PyFloat.is_zero.
    now rewrite Hb, Ho. }
  intros Hz. split.
  - intros Hout. unfold compute_significance_with, PyFloat.is_zero.
    rewrite Hz, !(pow_two_cases pow _ Hpow).
    destruct (out_of_range pow bs); [reflexivity|].
    cbn [orb] in Hout. rewrite Hout. reflexivity.
  - intros Hin se t. unfold compute_significance_with, PyFloat.is_zero.
    rewrite Hz, !(pow_two_cases pow _ Hpow).
    apply orb_false_iff in Hin as [-> ->].
    cbn [mbind result_bind].
    change (PyFloat.truediv ?x default_n) with (Ok (PrimFloat.div x default_n)).
    cbn [mbind result_bind].
    rewrite (sqrt_of_means _ _ (squared_not_neg pow bs Hpow)
                               (squared_not_neg pow os Hpow)).
    cbn [mbind result_bind]. fold se.
    split; intros Hse; rewrite Hse; [reflexivity|].
    unfold PyFloat.truediv. rewrite Hse. cbn [mbind result_bind]. fold t.
    unfold PyFloat.gt.
    repeat match goal with |- context [PrimFloat.ltb ?x t] =>
      destruct (PrimFloat.ltb x t) end; reflexivity.
Qed.

Lemma compute_significance_cases_witness :
  well_behaved rounded_pow /\
  compute_significance_with rounded_pow 100%float 5%float 130%float 5%float
    = Ok (PrimFloat.div 30%float (PrimFloat.sqrt 2.5%float), "***").
Proof.
  split; [exact rounded_pow_well_behaved|].
  destruct (compute_significance_cases rounded_pow 100%float 5%float
              130%float 5%float rounded_pow_well_behaved) as [_ H].
  destruct (H eq_refl) as [_ H']. destruct (H' eq_refl) as [_ H''].
  exact (H'' eq_refl).
Defined.

(** ** A pow that rounds correctly *)

Lemma mul_abs (x : float) :
  PrimFloat.mul (PrimFloat.abs x) (PrimFloat.abs x) = PrimFloat.mul x x.
Proof.
  apply Prim2SF_inj. rewrite !mul_spec, abs_spec.
  destruct (Prim2SF x) as [s|s| |s m e]; try reflexivity; now destruct s.
Qed.

(** [PyFloat.square] is [x ** 2] over a [pow] that rounds the square
    correctly. *)
Lemma pow_two_rounded (x : float) :
  PyFloat.pow_two rounded_pow x = PyFloat.square x.
Proof.
  rewrite (pow_two_cases _ _ rounded_pow_well_behaved).
  unfold out_of_range, squared, ordinary, PyFloat.square, rounded_pow.
  cbn [fst snd].
  destruct (PrimFloat.is_nan x) eqn:Hn.
  { cbn [negb andb].
    assert (PrimFloat.mul x x = x) as ->.
    { apply Prim2SF_inj. now rewrite mul_spec, (is_nan_nan _ Hn). }
    now destruct (PrimFloat.is_infinity x). }
  destruct (PrimFloat.is_infinity x) eqn:Hi.
  { cbn [negb andb]. rewrite andb_false_r. f_equal.
    apply is_infinity_infinity in Hi as [s E].
    apply Prim2SF_inj. rewrite mul_spec, E. now destruct s. }
  destruct (PrimFloat.eqb x 0%float) eqn:Hz.
  { cbn [negb andb]. apply eqb_zero_zero in Hz as [s E].
    assert (PrimFloat.mul x x = 0%float) as ->; [|reflexivity].
    apply Prim2SF_inj. rewrite mul_spec, E. now destruct s. }
  destruct (PrimFloat.eqb (PrimFloat.abs x) 1%float) eqn:H1.
  { cbn [negb andb]. eapply eqb_finite_eq in H1; [|reflexivity].
    rewrite <- mul_abs, H1. reflexivity. }
  cbn [negb andb]. rewrite mul_abs, andb_true_r. reflexivity.
Qed.

(** The last bit of [pow] can decide the marker: where [pow] gives
    [296.797 ** 2] one unit in the last place below the rounded square, the
    t-statistic is above 3.85, and with the rounded square it is below. *)
Example last_bit_of_pow :
  let pow : libm_pow := fun x y =>
    if PrimFloat.eqb x 296.797%float
    then (88088.45920900001%float, no_error)
    else rounded_pow x y in
  compute_significance_with pow 255.508432994432%float 296.797%float
      0%float 0%float
    = Ok (3.8500000000000005%float, "***") /\
  compute_significance_with rounded_pow 255.508432994432%float 296.797%float
      0%float 0%float
    = Ok (3.8499999999999996%float, "**").
Proof. split; vm_compute; reflexivity. Qed.

(** [compute_significance] is the function over such a [pow]. *)
Lemma compute_significance_rounded bm bs om os :
  compute_significance_with rounded_pow bm bs om os
    = compute_significance bm bs om os.
Proof.
  unfold compute_significance_with, compute_significance.
  now rewrite !pow_two_rounded.
Qed.

End Power.
